(** * The Scantastic pairing modal (apps/mobile/src/features/scantastic/ScantasticModal.tsx)

    A shallow embedding of the React component [ScantasticModal]: its
    [useState] cells become the fields of a record, each handler becomes
    a function from the state before to the state after, and everything
    a handler awaits (the encryption helper, the two [fetch] calls,
    [Date.now()]) is an argument of the handler, so that a handler can
    be evaluated on any answer the outside world may give.  Calls made
    to the outside world are recorded, in order, in a list of effects. *)

From Stdlib Require Import ZArith String Ascii List Bool Lia Permutation.
Import ListNotations.

Open Scope string_scope.
Open Scope list_scope.
Open Scope Z_scope.

(** ** Constants *)

(** Modelled from the spec: [ONE_SECOND_MS] and [ONE_MINUTE_MS] of
    utilities/src/time/time, which is not among the sources; the
    timestamps of the component are [Date.now()] milliseconds. *)
Definition ONE_SECOND_MS : Z := 1000.
Definition ONE_MINUTE_MS : Z := 60 * ONE_SECOND_MS.

Definition IP_MISMATCH_STATUS_CODE : Z := 401.

(** The three values of [enum OtpState]. *)
Module OtpState.
Definition Pending : string := "pending".
Definition Redeemed : string := "redeemed".
Definition Expired : string := "expired".
End OtpState.

(** ** JavaScript values *)

(** Truthiness of a string ([!s] is [negb (truthy s)]). *)
Definition truthy (s : string) : bool := negb (String.eqb s "").

(** Truthiness of an optional string field: [undefined] and [''] are
    falsy. *)
Definition truthy_opt (o : option string) : bool :=
  match o with
  | Some s => truthy s
  | None => false
  end.

(** The result of awaiting a promise. *)
Inductive Outcome (A : Type) : Type :=
| Resolved (a : A)
| Rejected.
Arguments Resolved {A} a.
Arguments Rejected {A}.

(** A [fetch] response: the HTTP status and what [response.json()]
    resolves to ([Rejected] when the body is not JSON).  A JSON body is
    [None] when it is [null], so that [data?.otp] is [undefined] and
    [data.otp] throws. *)
Record Response (B : Type) : Type := mkResponse {
  status_code : Z;
  json : Outcome (option B)
}.
Arguments mkResponse {B} _ _.
Arguments status_code {B} _.
Arguments json {B} _.

(** [response.ok]: the status is in the range 200-299. *)
Definition ok {B : Type} (r : Response B) : bool :=
  (200 <=? status_code r) && (status_code r <=? 299).

(** The body of the answer to [POST /blob]: the field [otp]. *)
Record BlobApiResponse : Type := mkBlobBody {
  blob_otp : option string
}.

(** [interface OtpStateApiResponse]; the expiry is a whole number of
    seconds. *)
Record OtpStateApiResponse : Type := mkOtpStateBody {
  otp : option string;
  expiresAtInSeconds : option Z
}.

(** ** Wallet context and modal parameters *)

Record Account : Type := mkAccount {
  address : string;
  derivationIndex : Z
}.

Record PublicKey : Type := mkPublicKey {
  n : string;
  e : string
}.

(** [initialState?.params]: the fields the handlers read. *)
Record Params : Type := mkParams {
  publicKey : option PublicKey;
  uuid : option string
}.

(** ** Account selection *)

(** The comparator handed to [Array.prototype.sort]. *)
Definition compareFn (account1 account2 : Account) : Z :=
  derivationIndex account1 - derivationIndex account2.

(** [Array.prototype.sort] is a stable sort: an element stays in front
    of the later elements it does not compare greater than. *)
Fixpoint insert (a : Account) (l : list Account) : list Account :=
  match l with
  | [] => [a]
  | b :: l' => if compareFn a b <=? 0 then a :: b :: l' else b :: insert a l'
  end.

Fixpoint sort (l : list Account) : list Account :=
  match l with
  | [] => []
  | a :: l' => insert a (sort l')
  end.

(** [useSignerAccounts().sort(...)[0]]; [None] is [undefined], on which
    the component throws. *)
Definition selectAccount (signerAccounts : list Account) : option Account :=
  hd_error (sort signerAccounts).

(** ** Component state *)

(** The [useState] cells.  [expiryText] is left out: it only holds the
    countdown text. *)
Record State : Type := mkState {
  OTP : string;
  expirationTimestamp : Z;
  expired : bool;
  redeemed : bool;
  error : string;
  showIPWarning : bool
}.

Definition setOTP (v : string) (s : State) : State :=
  mkState v (expirationTimestamp s) (expired s) (redeemed s) (error s) (showIPWarning s).
Definition setExpirationTimestamp (v : Z) (s : State) : State :=
  mkState (OTP s) v (expired s) (redeemed s) (error s) (showIPWarning s).
Definition setExpired (v : bool) (s : State) : State :=
  mkState (OTP s) (expirationTimestamp s) v (redeemed s) (error s) (showIPWarning s).
Definition setRedeemed (v : bool) (s : State) : State :=
  mkState (OTP s) (expirationTimestamp s) (expired s) v (error s) (showIPWarning s).
Definition setError (v : string) (s : State) : State :=
  mkState (OTP s) (expirationTimestamp s) (expired s) (redeemed s) v (showIPWarning s).
Definition setShowIPWarning (v : bool) (s : State) : State :=
  mkState (OTP s) (expirationTimestamp s) (expired s) (redeemed s) (error s) v.

(** The state of a freshly mounted modal, [now] being [Date.now()] at
    the first render. *)
Definition initialState (now : Z) : State :=
  mkState "" (now + 6 * ONE_MINUTE_MS) false false "" false.

(** Mounting the component: it throws ([None]) when the wallet has no
    signer account. *)
Definition mount (signerAccounts : list Account) (now : Z) : option (Account * State) :=
  match selectAccount signerAccounts with
  | Some account => Some (account, initialState now)
  | None => None
  end.

(** The translation function: a message is represented by its key. *)
Definition t (key : string) : string := key.

(** ** Effects *)

(** What a handler does to the outside world, in the order it does it. *)
Inductive Effect : Type :=
| GetEncryptedMnemonic (addr modulus exponent : string)
| PostBlob (id : option string) (blob : string)
| PostOtpState (id : string)
| LoggerError (function : string).

(** How a [try] block ends: it runs to its end (or returns) with a new
    state, or it throws. *)
Inductive Completion : Type :=
| Completed (s : State)
| Threw (message : string).

(** ** confirm: [onEncryptSeedphrase] *)

(** The body of the second [try] block, after [fetch] has resolved to
    [response]; [now] is [Date.now()] when the body has been read. *)
Definition submitted (response : Response BlobApiResponse) (now : Z) (s : State) : Completion :=
  if status_code response =? IP_MISMATCH_STATUS_CODE then
    Completed (setShowIPWarning true s)
  else if negb (ok response) then
    Threw "Failed to post blob"
  else
    match json response with
    | Rejected => Threw "not JSON"
    | Resolved data =>
        match match data with Some d => blob_otp d | None => None end with
        | Some code =>
            if truthy code then
              Completed (setOTP code (setExpirationTimestamp (now + ONE_MINUTE_MS * 2) s))
            else Threw "OTP unavailable"
        | None => Threw "OTP unavailable"
        end
    end.

Definition onEncryptSeedphrase
    (account : Account) (params : Params)
    (encryption : Outcome string)
    (fetched : Outcome (Response BlobApiResponse)) (now : Z)
    (s : State) : State * list Effect :=
  match publicKey params with
  | None => (s, [])
  | Some pubKey =>
      let s0 := setError "" s in
      let call := GetEncryptedMnemonic (address account) (n pubKey) (e pubKey) in
      (* first try/catch: the catch block does not return *)
      let '(encryptedSeedphrase, s1, log1) :=
        match encryption with
        | Resolved blob => (blob, s0, [])
        | Rejected =>
            ("", setError (t "scantastic.error.encryption") s0,
             [LoggerError "onEncryptSeedphrase->getEncryptedMnemonic"])
        end in
      (* second try/catch *)
      let post := PostBlob (uuid params) encryptedSeedphrase in
      let completion :=
        match fetched with
        | Resolved response => submitted response now s1
        | Rejected => Threw "fetch failed"
        end in
      match completion with
      | Completed s2 => (s2, call :: log1 ++ [post])
      | Threw _ =>
          (setError (t "scantastic.error.noCode") s1,
           call :: log1 ++ [post; LoggerError "onEncryptSeedphrase->fetch"])
      end
  end.

(** ** poll: [checkOTPState] *)

(** The body of the [try] block after [fetch] has resolved. *)
Definition polled (response : Response OtpStateApiResponse) (s : State) : Completion :=
  if negb (ok response) then Threw "Failed to check OTP state"
  else
    match json response with
    | Rejected => Threw "not JSON"
    | Resolved None => Threw "TypeError"
    | Resolved (Some data) =>
        match otp data with
        | None => Threw "No OTP state received."
        | Some otpState =>
            if negb (truthy otpState) then Threw "No OTP state received."
            else
              let s1 :=
                match expiresAtInSeconds data with
                | Some v =>
                    (* a number is truthy unless it is 0 *)
                    if negb (v =? 0)
                    then setExpirationTimestamp (v * ONE_SECOND_MS) s
                    else s
                | None => s
                end in
              let s2 := if String.eqb otpState OtpState.Redeemed then setRedeemed true s1 else s1 in
              let s3 := if String.eqb otpState OtpState.Expired then setExpired true s2 else s2 in
              Completed s3
        end
    end.

Definition checkOTPState
    (params : Params) (fetched : Outcome (Response OtpStateApiResponse))
    (s : State) : State * list Effect :=
  if negb (truthy (OTP s)) || negb (truthy_opt (uuid params)) then (s, [])
  else
    let id := match uuid params with Some u => u | None => "" end in
    let completion :=
      match fetched with
      | Resolved response => polled response s
      | Rejected => Threw "fetch failed"
      end in
    match completion with
    | Completed s' => (s', [PostOtpState id])
    | Threw _ => (s, [PostOtpState id; LoggerError "checkOTPState"])
    end.

(** ** tick: the callback of the [setInterval] effect *)

Definition tick (now : Z) (s : State) : State :=
  let timeLeft := expirationTimestamp s - now in
  setExpired (timeLeft <=? 0) s.

(** ** Rendering *)

(** Actions dispatched to the store by the component body. *)
Inductive Action : Type :=
| PushNotificationScantasticComplete (hideDelay : Z)
| SetExtensionOnboardingStateCompleted
| CloseAllModals.

(** The five sheets the component can return. *)
Inductive Screen : Type :=
| IpMismatchSheet
| TimeoutSheet
| CodeSheet (code : string)
| ErrorSheet (message : string)
| ConfirmationSheet.

(** The three dispatches of the [if (redeemed)] block. *)
Definition completionSignal : list Action :=
  [PushNotificationScantasticComplete (6 * ONE_SECOND_MS);
   SetExtensionOnboardingStateCompleted;
   CloseAllModals].

(** One evaluation of the component body: what it dispatches and the
    sheet it returns. *)
Definition render (s : State) : list Action * Screen :=
  (if redeemed s then completionSignal else [],
   if showIPWarning s then IpMismatchSheet
   else if expired s then TimeoutSheet
   else if truthy (OTP s) then CodeSheet (OTP s)
   else if truthy (error s) then ErrorSheet (error s)
   else ConfirmationSheet).

(** ** The status of the session *)

(** The component keeps no status; it is read off the state cells in the
    order in which the component body tests them: [redeemed] (the
    dispatch block), then [showIPWarning], [expired], [OTP] and [error]
    (the sheets).  Nothing in the state tells that an encryption or a
    submission is in flight. *)
Inductive Status : Type :=
| AwaitingConfirmation
| AwaitingRedemption
| Redeemed
| Expired
| IpMismatch
| Failed (reason : string).

Definition status (s : State) : Status :=
  if redeemed s then Redeemed
  else
    match snd (render s) with
    | IpMismatchSheet => IpMismatch
    | TimeoutSheet => Expired
    | CodeSheet _ => AwaitingRedemption
    | ErrorSheet message => Failed message
    | ConfirmationSheet => AwaitingConfirmation
    end.

Definition terminal (st : Status) : bool :=
  match st with
  | Redeemed | Expired | IpMismatch | Failed _ => true
  | AwaitingConfirmation | AwaitingRedemption => false
  end.

(** ** Sequences of calls *)

(** One call of a handler, with what the outside world answers to it. *)
Inductive Call : Type :=
| Confirm (encryption : Outcome string)
          (fetched : Outcome (Response BlobApiResponse)) (now : Z)
| Poll (fetched : Outcome (Response OtpStateApiResponse))
| Tick (now : Z).

Section Session.

Variable account : Account.
Variable params : Params.

Definition step (s : State) (c : Call) : State :=
  match c with
  | Confirm encryption fetched now =>
      fst (onEncryptSeedphrase account params encryption fetched now s)
  | Poll fetched => fst (checkOTPState params fetched s)
  | Tick now => tick now s
  end.

Definition run (s : State) (calls : list Call) : State :=
  fold_left step calls s.

(** The modal as the host sees it. *)
Inductive Modal : Type :=
| Open (s : State)
| Closed.

Definition closes (a : Action) : bool :=
  match a with
  | CloseAllModals => true
  | _ => false
  end.

(** Modelled from the spec: the host's reaction to [closeAllModals]
    (src/features/modals/modalSlice is not among the sources): the
    completion signal is consumed by the host to close all related
    UI, and the session is discarded when the modal closes.  A state
    change is followed by one evaluation of the component body. *)
Definition commit (s : State) : Modal * list Action :=
  let dispatched := fst (render s) in
  (if existsb closes dispatched then Closed else Open s, dispatched).

(** The life of a session: the calls it receives while its modal is
    open, and everything it dispatches meanwhile. *)
Fixpoint session (m : Modal) (calls : list Call) : Modal * list Action :=
  match m, calls with
  | Open s, c :: rest =>
      let '(m', dispatched) := commit (step s c) in
      let '(m'', later) := session m' rest in
      (m'', dispatched ++ later)
  | _, _ => (m, [])
  end.

End Session.

(** ** Failed polls *)

(** The three ways in which a poll fails: [fetch] rejects, the answer
    has a status outside 200-299, or its body has no [otp] field. *)
Inductive pollFailure : Outcome (Response OtpStateApiResponse) -> Prop :=
| TransportFailure : pollFailure Rejected
| NonSuccessStatus (response : Response OtpStateApiResponse) :
    ok response = false -> pollFailure (Resolved response)
| NoOtpState (response : Response OtpStateApiResponse) (data : OtpStateApiResponse) :
    json response = Resolved (Some data) -> otp data = None ->
    pollFailure (Resolved response).

(** ** Failed submissions *)

(** The ways in which the second [try] block of [onEncryptSeedphrase]
    throws: [fetch] rejects, the answer is neither 401 nor in 200-299,
    or the body read from a 2xx answer yields no truthy [otp] (it is
    not JSON, it is [null], the field is missing or it is empty). *)
Inductive submitFailure : Outcome (Response BlobApiResponse) -> Prop :=
| SubmitTransport : submitFailure Rejected
| SubmitStatus (response : Response BlobApiResponse) :
    status_code response <> IP_MISMATCH_STATUS_CODE ->
    ok response = false ->
    submitFailure (Resolved response)
| SubmitNotJson (response : Response BlobApiResponse) :
    ok response = true -> json response = Rejected ->
    submitFailure (Resolved response)
| SubmitNoOtp (response : Response BlobApiResponse) (data : option BlobApiResponse) :
    ok response = true -> json response = Resolved data ->
    truthy_opt (match data with Some d => blob_otp d | None => None end) = false ->
    submitFailure (Resolved response).

(** ** What a session sends *)

(** The blob that [onEncryptSeedphrase] posts: [encryptedSeedphrase],
    which is still [''] when the helper has rejected. *)
Definition postedBlob (encryption : Outcome string) : string :=
  match encryption with
  | Resolved blob => blob
  | Rejected => ""
  end.

Definition isLoggerError (eff : Effect) : bool :=
  match eff with
  | LoggerError _ => true
  | _ => false
  end.

(** The calls made to the encryption helper and to the pairing service,
    the log entries left aside. *)
Definition requests (effects : list Effect) : list Effect :=
  filter (fun eff => negb (isLoggerError eff)) effects.

Definition isConfirm (c : Call) : bool :=
  match c with
  | Confirm _ _ _ => true
  | _ => false
  end.

Definition isPoll (c : Call) : bool :=
  match c with
  | Poll _ => true
  | _ => false
  end.

(** The effects of one call, and of a sequence of calls. *)
Definition stepEffects (account : Account) (params : Params) (s : State) (c : Call)
  : list Effect :=
  match c with
  | Confirm encryption fetched now =>
      snd (onEncryptSeedphrase account params encryption fetched now s)
  | Poll fetched => snd (checkOTPState params fetched s)
  | Tick _ => []
  end.

Fixpoint runEffects (account : Account) (params : Params) (s : State) (calls : list Call)
  : list Effect :=
  match calls with
  | [] => []
  | c :: rest =>
      stepEffects account params s c
      ++ runEffects account params (step account params s c) rest
  end.

(** ** The code as it is displayed *)

(** [s.split('')]: the characters of [s], one string each (the codes
    are made of ASCII characters, one code unit each). *)
Definition split_chars (s : string) : list string :=
  map (fun c => String c EmptyString) (list_ascii_of_string s).

(** [l.join(sep)]. *)
Definition join (sep : string) (l : list string) : string :=
  String.concat sep l.

(** The two [Text] elements of the code sheet:
    [OTP.substring(0, 3).split('').join(' ')] and
    [OTP.substring(3).split('').join(' ')]. *)
Definition otpDisplay (code : string) : string * string :=
  (join " " (split_chars (substring 0 3 code)),
   join " " (split_chars (substring 3 (String.length code - 3) code))).

(** Reading a displayed group back: the spaces are dropped. *)
Fixpoint removeSpaces (s : string) : string :=
  match s with
  | EmptyString => EmptyString
  | String c rest =>
      if Ascii.eqb c " "%char then removeSpaces rest else String c (removeSpaces rest)
  end.

Fixpoint noSpace (s : string) : bool :=
  match s with
  | EmptyString => true
  | String c rest => negb (Ascii.eqb c " "%char) && noSpace rest
  end.

(** * Properties *)

(** ** Reading the status *)

Lemma status_Redeemed (s : State) :
  status s = Redeemed <-> redeemed s = true.
Proof.
  unfold status, render; cbn [snd]. split.
  - destruct (redeemed s); [reflexivity|].
    destruct (showIPWarning s), (expired s), (truthy (OTP s)), (truthy (error s));
      discriminate.
  - intros ->. reflexivity.
Qed.

Lemma status_IpMismatch (s : State) :
  status s = IpMismatch <-> redeemed s = false /\ showIPWarning s = true.
Proof.
  unfold status, render; cbn [snd]. split.
  - destruct (redeemed s); [discriminate|].
    destruct (showIPWarning s); [auto|].
    destruct (expired s), (truthy (OTP s)), (truthy (error s)); discriminate.
  - intros [-> ->]. reflexivity.
Qed.

Lemma status_Expired (s : State) :
  status s = Expired <->
  redeemed s = false /\ showIPWarning s = false /\ expired s = true.
Proof.
  unfold status, render; cbn [snd]. split.
  - destruct (redeemed s); [discriminate|].
    destruct (showIPWarning s); [discriminate|].
    destruct (expired s); [auto|].
    destruct (truthy (OTP s)), (truthy (error s)); discriminate.
  - intros (-> & -> & ->). reflexivity.
Qed.

Lemma status_AwaitingRedemption (s : State) :
  status s = AwaitingRedemption <->
  redeemed s = false /\ showIPWarning s = false /\ expired s = false /\
  truthy (OTP s) = true.
Proof.
  unfold status, render; cbn [snd]. split.
  - destruct (redeemed s); [discriminate|].
    destruct (showIPWarning s); [discriminate|].
    destruct (expired s); [discriminate|].
    destruct (truthy (OTP s)); [auto|].
    destruct (truthy (error s)); discriminate.
  - intros (-> & -> & -> & ->). reflexivity.
Qed.

Lemma status_Failed (s : State) (reason : string) :
  status s = Failed reason ->
  showIPWarning s = false /\ truthy (OTP s) = false /\ error s = reason.
Proof.
  unfold status, render; cbn [snd].
  destruct (redeemed s); [discriminate|].
  destruct (showIPWarning s); [discriminate|].
  destruct (expired s); [discriminate|].
  destruct (truthy (OTP s)); [discriminate|].
  destruct (truthy (error s)); [|discriminate].
  intros [= ->]. auto.
Qed.

(** ** The two try blocks *)

(** Whatever [POST /blob] answers, the second try block leaves the
    cells [redeemed] and [expired] alone and never clears
    [showIPWarning]. *)
Lemma submitted_flags (response : Response BlobApiResponse) (now : Z) (s s' : State) :
  submitted response now s = Completed s' ->
  redeemed s' = redeemed s /\ expired s' = expired s /\ error s' = error s /\
  (showIPWarning s = true -> showIPWarning s' = true).
Proof.
  unfold submitted.
  destruct (status_code response =? IP_MISMATCH_STATUS_CODE).
  - intros [= <-]. cbn. auto.
  - destruct (negb (ok response)); [discriminate|].
    destruct (json response) as [[[[code|]]|]|]; cbn; try discriminate.
    destruct (truthy code); [|discriminate].
    intros [= <-]. cbn. auto.
Qed.

(** A poll that completes never clears a flag. *)
Lemma polled_flags (response : Response OtpStateApiResponse) (s s' : State) :
  polled response s = Completed s' ->
  (redeemed s = true -> redeemed s' = true) /\
  showIPWarning s' = showIPWarning s /\
  (expired s = true -> expired s' = true) /\
  OTP s' = OTP s /\ error s' = error s.
Proof.
  unfold polled.
  destruct (negb (ok response)); [discriminate|].
  destruct (json response) as [[[[otpState|] expiry]|]|];
    cbn [otp expiresAtInSeconds]; try discriminate.
  destruct (negb (truthy otpState)); [discriminate|].
  intros [= <-].
  destruct expiry as [v|]; [destruct (negb (v =? 0))|];
    destruct (String.eqb otpState OtpState.Redeemed),
             (String.eqb otpState OtpState.Expired); cbn; auto.
Qed.

(** What [onEncryptSeedphrase] does once the public key is there. *)
Lemma onEncryptSeedphrase_flags
    (account : Account) (params : Params) (encryption : Outcome string)
    (fetched : Outcome (Response BlobApiResponse)) (now : Z) (s : State) :
  let s' := fst (onEncryptSeedphrase account params encryption fetched now s) in
  redeemed s' = redeemed s /\ expired s' = expired s /\
  (showIPWarning s = true -> showIPWarning s' = true).
Proof.
  unfold onEncryptSeedphrase.
  destruct (publicKey params) as [pubKey|]; [|cbn; auto].
  destruct encryption as [blob|]; destruct fetched as [response|]; cbn -[submitted];
    try (cbn; auto; fail).
  - destruct (submitted response now (setError "" s)) as [s2|msg] eqn:Hs; cbn; [|auto].
    apply submitted_flags in Hs. cbn in Hs. tauto.
  - destruct (submitted response now _) as [s2|msg] eqn:Hs; cbn; [|auto].
    apply submitted_flags in Hs. cbn in Hs. tauto.
Qed.

Lemma checkOTPState_flags
    (params : Params) (fetched : Outcome (Response OtpStateApiResponse)) (s : State) :
  let s' := fst (checkOTPState params fetched s) in
  (redeemed s = true -> redeemed s' = true) /\
  showIPWarning s' = showIPWarning s.
Proof.
  unfold checkOTPState.
  destruct (negb (truthy (OTP s)) || negb (truthy_opt (uuid params))); [cbn; auto|].
  destruct fetched as [response|]; [|cbn; auto].
  destruct (polled response s) as [s2|msg] eqn:Hp; cbn; [|auto].
  apply polled_flags in Hp. tauto.
Qed.

(** [redeemed] and [showIPWarning] are only ever set to [true]. *)
Lemma step_latches (account : Account) (params : Params) (s : State) (c : Call) :
  (redeemed s = true -> redeemed (step account params s c) = true) /\
  (showIPWarning s = true -> showIPWarning (step account params s c) = true).
Proof.
  destruct c as [encryption fetched now|fetched|now]; cbn [step].
  - pose proof (onEncryptSeedphrase_flags account params encryption fetched now s) as H.
    cbv zeta in H. destruct H as (Hr & _ & Hw). rewrite Hr. auto.
  - pose proof (checkOTPState_flags params fetched s) as H.
    cbv zeta in H. destruct H as (Hr & Hw). rewrite Hw. auto.
  - cbn. auto.
Qed.

Lemma run_latches (account : Account) (params : Params) (calls : list Call) :
  forall s : State,
    (redeemed s = true -> redeemed (run account params s calls) = true) /\
    (showIPWarning s = true -> showIPWarning (run account params s calls) = true).
Proof.
  induction calls as [|c calls IH]; intros s; cbn [run fold_left]; [auto|].
  destruct (step_latches account params s c) as [Hr Hw].
  destruct (IH (step account params s c)) as [Hr' Hw'].
  split; auto.
Qed.

(** ** confirm *)

(** A submission that completes has either raised the IP warning or
    stored a code. *)
Lemma submitted_completed (response : Response BlobApiResponse) (now : Z) (s s' : State) :
  submitted response now s = Completed s' ->
  showIPWarning s' = true \/ truthy (OTP s') = true.
Proof.
  unfold submitted.
  destruct (status_code response =? IP_MISMATCH_STATUS_CODE).
  - intros [= <-]. left. reflexivity.
  - destruct (negb (ok response)); [discriminate|].
    destruct (json response) as [[[[code|]]|]|]; cbn; try discriminate.
    destruct (truthy code) eqn:Hcode; [|discriminate].
    intros [= <-]. right. exact Hcode.
Qed.

(** C1 (as the code behaves): when the encryption helper rejects, the
    catch block records the encryption message and logs, but does not
    return: [onEncryptSeedphrase] goes on to post a blob, the empty
    string, and whatever the server answers the session never ends in
    [Failed] with the encryption message. *)
Theorem encryption_failure_still_posts_blob
    (account : Account) (params : Params) (pubKey : PublicKey)
    (fetched : Outcome (Response BlobApiResponse)) (now : Z) (s : State) :
  publicKey params = Some pubKey ->
  let result := onEncryptSeedphrase account params Rejected fetched now s in
  In (PostBlob (uuid params) "") (snd result) /\
  status (fst result) <> Failed (t "scantastic.error.encryption").
Proof.
  intros Hkey. unfold onEncryptSeedphrase. rewrite Hkey.
  assert (Hthrew : forall s1 : State,
             status (setError (t "scantastic.error.noCode") s1)
             <> Failed (t "scantastic.error.encryption")).
  { intros s1 Hf. apply status_Failed in Hf. destruct Hf as (_ & _ & Hf).
    discriminate Hf. }
  destruct fetched as [response|]; cbn -[submitted status t].
  - destruct (submitted response now _) as [s2|msg] eqn:Hs; cbn -[status t].
    + split; [auto|]. intros Hf. apply status_Failed in Hf.
      destruct Hf as (Hw & Hotp & _).
      apply submitted_completed in Hs. destruct Hs; congruence.
    + split; [auto|]. apply Hthrew.
  - split; [auto|]. apply Hthrew.
Qed.

Lemma encryption_failure_still_posts_blob_witness :
  let params := mkParams (Some (mkPublicKey "c0ffee" "10001")) (Some "abc") in
  let result :=
    onEncryptSeedphrase (mkAccount "0xA11CE" 0) params Rejected
      (Resolved (mkResponse 400 Rejected)) 1000 (initialState 0) in
  In (PostBlob (Some "abc") "") (snd result) /\
  status (fst result) <> Failed (t "scantastic.error.encryption").
Proof.
  exact (encryption_failure_still_posts_blob (mkAccount "0xA11CE" 0)
           (mkParams (Some (mkPublicKey "c0ffee" "10001")) (Some "abc"))
           (mkPublicKey "c0ffee" "10001")
           (Resolved (mkResponse 400 Rejected)) 1000 (initialState 0) eq_refl).
Defined.

(** A rejected encryption followed by a refused submission, step by
    step: the helper is called,
    its failure is logged, an empty blob is posted all the same, and
    the message left for display is the one of the submission. *)
Example encryption_failure_trace :
  onEncryptSeedphrase (mkAccount "0xA11CE" 0)
    (mkParams (Some (mkPublicKey "c0ffee" "10001")) (Some "abc")) Rejected
    (Resolved (mkResponse 400 Rejected)) 1000 (initialState 0)
  = (setError "scantastic.error.noCode" (initialState 0),
     [GetEncryptedMnemonic "0xA11CE" "c0ffee" "10001";
      LoggerError "onEncryptSeedphrase->getEncryptedMnemonic";
      PostBlob (Some "abc") "";
      LoggerError "onEncryptSeedphrase->fetch"]).
Proof. reflexivity. Qed.

(** C5: when [POST /blob] succeeds with an OTP in its body, the
    component stores that OTP as it is and sets the expiry to exactly
    [now] plus two minutes, [now] being the time at which the body has
    been read; a session that was not redeemed, flagged for IP mismatch
    or expired then awaits redemption. *)
Theorem submit_success_stores_otp
    (account : Account) (params : Params) (pubKey : PublicKey)
    (encryption : Outcome string) (response : Response BlobApiResponse)
    (code : string) (now : Z) (s : State) :
  publicKey params = Some pubKey ->
  ok response = true ->
  json response = Resolved (Some (mkBlobBody (Some code))) ->
  truthy code = true ->
  let s' := fst (onEncryptSeedphrase account params encryption (Resolved response) now s) in
  OTP s' = code /\
  expirationTimestamp s' = now + 2 * ONE_MINUTE_MS /\
  (redeemed s = false -> showIPWarning s = false -> expired s = false ->
   status s' = AwaitingRedemption).
Proof.
  intros Hkey Hok Hjson Hcode. unfold onEncryptSeedphrase. rewrite Hkey.
  assert (Hsub : forall s1 : State,
             submitted response now s1
             = Completed (setOTP code (setExpirationTimestamp (now + ONE_MINUTE_MS * 2) s1))).
  { intros s1. unfold submitted. rewrite Hok, Hjson. cbn [negb blob_otp].
    rewrite Hcode.
    unfold ok in Hok. apply andb_prop in Hok. destruct Hok as [_ Hle].
    apply Z.leb_le in Hle.
    replace (status_code response =? IP_MISMATCH_STATUS_CODE) with false;
      [reflexivity|].
    symmetry. apply Z.eqb_neq. unfold IP_MISMATCH_STATUS_CODE. lia. }
  destruct encryption as [blob|]; cbn -[submitted status]; rewrite Hsub; cbn -[status].
  all: repeat split; try lia.
  all: intros Hr Hw He; apply status_AwaitingRedemption; cbn; auto.
Qed.

Lemma submit_success_stores_otp_witness :
  let s' :=
    fst (onEncryptSeedphrase (mkAccount "0xA11CE" 0)
           (mkParams (Some (mkPublicKey "c0ffee" "10001")) (Some "abc"))
           (Resolved "blob")
           (Resolved (mkResponse 200 (Resolved (Some (mkBlobBody (Some "123456"))))))
           5000 (initialState 0)) in
  OTP s' = "123456" /\
  expirationTimestamp s' = 125000 /\
  status s' = AwaitingRedemption.
Proof.
  pose proof (submit_success_stores_otp (mkAccount "0xA11CE" 0)
                (mkParams (Some (mkPublicKey "c0ffee" "10001")) (Some "abc"))
                (mkPublicKey "c0ffee" "10001") (Resolved "blob")
                (mkResponse 200 (Resolved (Some (mkBlobBody (Some "123456")))))
                "123456" 5000 (initialState 0)
                eq_refl eq_refl eq_refl eq_refl) as H.
  cbv zeta in H. destruct H as (Hotp & Hexp & Hst).
  cbv zeta. split; [exact Hotp|]. split; [exact Hexp|].
  apply Hst; reflexivity.
Defined.

(** C6: when [POST /blob] answers with status 401 the session shows the
    IP mismatch, whatever the body of the answer and whether or not the
    encryption went well (the session has not been redeemed: the
    confirmation button belongs to the first sheet). *)
Theorem submit_401_is_ip_mismatch
    (account : Account) (params : Params) (pubKey : PublicKey)
    (encryption : Outcome string) (body : Outcome (option BlobApiResponse))
    (now : Z) (s : State) :
  publicKey params = Some pubKey ->
  redeemed s = false ->
  status (fst (onEncryptSeedphrase account params encryption
                 (Resolved (mkResponse IP_MISMATCH_STATUS_CODE body)) now s))
  = IpMismatch.
Proof.
  intros Hkey Hr. unfold onEncryptSeedphrase. rewrite Hkey.
  destruct encryption as [blob|]; cbn -[status];
    apply status_IpMismatch; cbn; auto.
Qed.

Lemma submit_401_is_ip_mismatch_witness :
  status (fst (onEncryptSeedphrase (mkAccount "0xA11CE" 0)
                 (mkParams (Some (mkPublicKey "c0ffee" "10001")) (Some "abc"))
                 (Resolved "blob")
                 (Resolved (mkResponse 401 (Resolved (Some (mkBlobBody (Some "123456"))))))
                 5000 (initialState 0)))
  = IpMismatch.
Proof.
  exact (submit_401_is_ip_mismatch (mkAccount "0xA11CE" 0)
           (mkParams (Some (mkPublicKey "c0ffee" "10001")) (Some "abc"))
           (mkPublicKey "c0ffee" "10001") (Resolved "blob")
           (Resolved (Some (mkBlobBody (Some "123456")))) 5000 (initialState 0)
           eq_refl eq_refl).
Defined.

(** ** poll *)

(** C8: a poll whose request fails in transport, whose answer has a
    non-success status, or whose answer lacks the OTP-state field,
    leaves every cell of the state as it was. *)
Theorem failed_poll_leaves_state
    (params : Params) (fetched : Outcome (Response OtpStateApiResponse)) (s : State) :
  pollFailure fetched ->
  fst (checkOTPState params fetched s) = s.
Proof.
  intros Hfail. unfold checkOTPState.
  destruct (negb (truthy (OTP s)) || negb (truthy_opt (uuid params))); [reflexivity|].
  destruct Hfail as [|response Hok|response data Hjson Hotp]; [reflexivity| |].
  - unfold polled. rewrite Hok. reflexivity.
  - unfold polled. rewrite Hjson, Hotp.
    destruct (negb (ok response)); reflexivity.
Qed.

Lemma failed_poll_leaves_state_witness :
  let s := mkState "123456" 125000 false false "" false in
  fst (checkOTPState (mkParams None (Some "abc"))
         (Resolved (mkResponse 200 (Resolved (Some (mkOtpStateBody None (Some 999))))))
         s) = s.
Proof.
  apply failed_poll_leaves_state.
  apply (NoOtpState _ (mkOtpStateBody None (Some 999))); reflexivity.
Defined.

(** C7 (as the claim states it) fails: a successful answer that carries
    a later expiry but no OTP state is thrown away before the expiry is
    looked at. *)
Lemma fresher_expiry_not_adopted :
  let s := mkState "123456" 125000 false false "" false in
  let response := mkResponse 200 (Resolved (Some (mkOtpStateBody None (Some 999)))) in
  let s' := fst (checkOTPState (mkParams None (Some "abc")) (Resolved response) s) in
  ok response = true /\
  expirationTimestamp s < 999 * ONE_SECOND_MS /\
  expirationTimestamp s' = expirationTimestamp s /\
  expirationTimestamp s' <> 999 * ONE_SECOND_MS.
Proof. cbv. repeat split; discriminate. Qed.

(** C7 (amended): a successful answer that carries an OTP state and a
    non-zero [expiresAtInSeconds] makes the poll replace the expiry by
    the server's value, in milliseconds, be it later or earlier than
    the expiry held before. *)
Theorem poll_adopts_server_expiry
    (params : Params) (id : string) (response : Response OtpStateApiResponse)
    (data : OtpStateApiResponse) (otpState : string) (v : Z) (s : State) :
  truthy (OTP s) = true ->
  uuid params = Some id -> truthy id = true ->
  ok response = true ->
  json response = Resolved (Some data) ->
  otp data = Some otpState -> truthy otpState = true ->
  expiresAtInSeconds data = Some v -> v <> 0 ->
  expirationTimestamp (fst (checkOTPState params (Resolved response) s))
  = v * ONE_SECOND_MS.
Proof.
  intros Hotp Huuid Hid Hok Hjson Hstate Htruthy Hexp Hv.
  unfold checkOTPState. rewrite Hotp, Huuid. cbn [truthy_opt]. rewrite Hid.
  cbn [negb orb]. unfold polled.
  rewrite Hok, Hjson, Hstate, Htruthy, Hexp. cbn [negb].
  apply Z.eqb_neq in Hv. rewrite Hv. cbn [negb].
  destruct (String.eqb otpState OtpState.Redeemed),
           (String.eqb otpState OtpState.Expired); reflexivity.
Qed.

Lemma poll_adopts_server_expiry_witness :
  expirationTimestamp
    (fst (checkOTPState (mkParams None (Some "abc"))
            (Resolved (mkResponse 200
               (Resolved (Some (mkOtpStateBody (Some "pending") (Some 999))))))
            (mkState "123456" 125000 false false "" false)))
  = 999 * ONE_SECOND_MS.
Proof.
  apply (poll_adopts_server_expiry (mkParams None (Some "abc")) "abc" _
           (mkOtpStateBody (Some "pending") (Some 999)) "pending" 999);
    try reflexivity.
  discriminate.
Defined.

(** An expiry earlier than the one held is adopted like any other: the
    poll does not compare the two. *)
Example poll_adopts_earlier_expiry :
  expirationTimestamp
    (fst (checkOTPState (mkParams None (Some "abc"))
            (Resolved (mkResponse 200
               (Resolved (Some (mkOtpStateBody (Some "pending") (Some 60))))))
            (mkState "123456" 125000 false false "" false)))
  = 60000.
Proof. reflexivity. Qed.

(** ** tick *)

(** C9: a tick at a time [now] at or past the expiry, on a session that
    awaits redemption, makes it expired; no poll is involved. *)
Theorem tick_expires (now : Z) (s : State) :
  status s = AwaitingRedemption ->
  now >= expirationTimestamp s ->
  status (tick now s) = Expired.
Proof.
  intros Hst Hnow. apply status_AwaitingRedemption in Hst.
  destruct Hst as (Hr & Hw & _ & _).
  apply status_Expired. unfold tick. cbn.
  repeat split; [exact Hr|exact Hw|].
  apply Z.leb_le. lia.
Qed.

Lemma tick_expires_witness :
  status (tick 125000 (mkState "123456" 125000 false false "" false)) = Expired.
Proof.
  apply tick_expires; [reflexivity|].
  cbn. lia.
Defined.

(** ** Redemption and the completion signal *)

Lemma commit_redeemed (s : State) :
  redeemed s = true -> commit s = (Closed, completionSignal).
Proof. intros H. unfold commit, render. cbn [fst]. rewrite H. reflexivity. Qed.

Lemma commit_not_redeemed (s : State) :
  redeemed s = false -> commit s = (Open s, []).
Proof. intros H. unfold commit, render. cbn [fst]. rewrite H. reflexivity. Qed.

Lemma session_Closed (account : Account) (params : Params) (calls : list Call) :
  session account params Closed calls = (Closed, []).
Proof. destruct calls; reflexivity. Qed.

(** A session whose modal is still open has dispatched nothing. *)
Lemma session_open_silent (account : Account) (params : Params) (calls : list Call) :
  forall (m : Modal) (s : State),
    fst (session account params m calls) = Open s ->
    snd (session account params m calls) = [].
Proof.
  induction calls as [|c calls IH]; intros m s.
  - destruct m; reflexivity.
  - destruct m as [s1|]; [|reflexivity].
    cbn [session].
    destruct (redeemed (step account params s1 c)) eqn:Hr.
    + rewrite (commit_redeemed _ Hr), session_Closed. discriminate.
    + rewrite (commit_not_redeemed _ Hr).
      specialize (IH (Open (step account params s1 c)) s).
      destruct (session account params (Open (step account params s1 c)) calls)
        as [m'' later].
      cbn [fst snd] in *. intros H. rewrite (IH H). reflexivity.
Qed.

Lemma session_app (account : Account) (params : Params) (pre post : list Call) :
  forall m : Modal,
    session account params m (pre ++ post)
    = (fst (session account params (fst (session account params m pre)) post),
       snd (session account params m pre)
       ++ snd (session account params (fst (session account params m pre)) post)).
Proof.
  induction pre as [|c pre IH]; intros m.
  - cbn [app]. destruct m; cbn [session fst snd app];
      destruct (session account params _ post); reflexivity.
  - destruct m as [s|].
    + cbn [app session].
      destruct (commit (step account params s c)) as [m' dispatched].
      rewrite IH.
      destruct (session account params m' pre) as [m1 a1]. cbn [fst snd].
      destruct (session account params m1 post) as [m2 a2]. cbn [fst snd].
      rewrite app_assoc. reflexivity.
    + cbn [app]. rewrite ?session_Closed. cbn [fst snd app].
      rewrite ?session_Closed. reflexivity.
Qed.

(** A poll that is answered "redeemed" sets the cell [redeemed]. *)
Lemma poll_redeemed_sets_flag
    (params : Params) (id : string) (response : Response OtpStateApiResponse)
    (data : OtpStateApiResponse) (s : State) :
  truthy (OTP s) = true ->
  uuid params = Some id -> truthy id = true ->
  ok response = true ->
  json response = Resolved (Some data) ->
  otp data = Some OtpState.Redeemed ->
  redeemed (fst (checkOTPState params (Resolved response) s)) = true.
Proof.
  intros Hotp Huuid Hid Hok Hjson Hstate.
  unfold checkOTPState. rewrite Hotp, Huuid. cbn [truthy_opt]. rewrite Hid.
  cbn [negb orb]. unfold polled. rewrite Hok, Hjson, Hstate.
  destruct (expiresAtInSeconds data) as [v|]; [destruct (negb (v =? 0))|];
    reflexivity.
Qed.

(** C4: a poll answered "redeemed" while the session awaits redemption
    makes the status Redeemed, and over the whole life of the session
    the completion signal (the notification, the onboarding state and
    the closing of the modals) is dispatched exactly once: nothing was
    dispatched before, and the signal closes the modal. *)
Theorem poll_redeemed_completes_once
    (account : Account) (params : Params) (id : string)
    (pre post : list Call) (s0 s : State)
    (response : Response OtpStateApiResponse) (data : OtpStateApiResponse) :
  uuid params = Some id -> truthy id = true ->
  fst (session account params (Open s0) pre) = Open s ->
  status s = AwaitingRedemption ->
  ok response = true ->
  json response = Resolved (Some data) ->
  otp data = Some OtpState.Redeemed ->
  status (fst (checkOTPState params (Resolved response) s)) = Redeemed /\
  session account params (Open s0) (pre ++ Poll (Resolved response) :: post)
  = (Closed, completionSignal).
Proof.
  intros Huuid Hid Hpre Hst Hok Hjson Hstate.
  apply status_AwaitingRedemption in Hst. destruct Hst as (_ & _ & _ & Hotp).
  pose proof (poll_redeemed_sets_flag params id response data s
                Hotp Huuid Hid Hok Hjson Hstate) as Hred.
  split; [apply status_Redeemed; exact Hred|].
  rewrite session_app, (session_open_silent _ _ _ _ _ Hpre), Hpre.
  cbn [session step app].
  rewrite (commit_redeemed _ Hred), session_Closed. reflexivity.
Qed.

Lemma poll_redeemed_completes_once_witness :
  let account := mkAccount "0xA11CE" 0 in
  let params := mkParams (Some (mkPublicKey "c0ffee" "10001")) (Some "abc") in
  let answer (state : string) :=
    Poll (Resolved (mkResponse 200 (Resolved (Some (mkOtpStateBody (Some state) None))))) in
  let pre :=
    [Confirm (Resolved "blob")
       (Resolved (mkResponse 200 (Resolved (Some (mkBlobBody (Some "123456")))))) 5000;
     Tick 6000; answer "pending"] in
  session account params (Open (initialState 0))
    (pre ++ answer "redeemed" :: [Tick 8000; answer "redeemed"])
  = (Closed, completionSignal).
Proof.
  cbv zeta.
  refine (proj2 (poll_redeemed_completes_once (mkAccount "0xA11CE" 0)
                   (mkParams (Some (mkPublicKey "c0ffee" "10001")) (Some "abc")) "abc"
                   _ _ (initialState 0)
                   (mkState "123456" 125000 false false "" false)
                   (mkResponse 200 (Resolved (Some (mkOtpStateBody (Some "redeemed") None))))
                   (mkOtpStateBody (Some "redeemed") None)
                   eq_refl eq_refl _ eq_refl eq_refl eq_refl eq_refl)).
  reflexivity.
Defined.

(** ** Terminal statuses *)

(** C2 (as the claim states it) fails.  A session that a poll has
    shown Expired while its own expiry is still ahead is back to
    awaiting redemption at the next tick, which recomputes [expired]
    from the clock.  A session that failed at submission is shown
    Expired once a tick finds the scan window over, and awaits
    redemption after a further confirmation that succeeds.  A session
    that holds a code and shows the IP mismatch becomes Redeemed when a
    poll says so. *)
Lemma terminal_status_changes :
  let account := mkAccount "0xA11CE" 0 in
  let params := mkParams (Some (mkPublicKey "c0ffee" "10001")) (Some "abc") in
  let issued :=
    Confirm (Resolved "blob")
      (Resolved (mkResponse 200 (Resolved (Some (mkBlobBody (Some "482913")))))) 1000 in
  let answered (state : string) :=
    Poll (Resolved (mkResponse 200 (Resolved (Some (mkOtpStateBody (Some state) None))))) in
  let refused (code : Z) :=
    Confirm (Resolved "blob") (Resolved (mkResponse code Rejected)) 1000 in
  let from (calls : list Call) := status (run account params (initialState 0) calls) in
  (from [issued; answered "expired"] = Expired /\
   from [issued; answered "expired"; Tick 3000] = AwaitingRedemption) /\
  (from [refused 500] = Failed "scantastic.error.noCode" /\
   from [refused 500; Tick 360000] = Expired /\
   from [refused 500; issued] = AwaitingRedemption) /\
  (from [issued; refused 401] = IpMismatch /\
   from [issued; refused 401; answered "redeemed"] = Redeemed).
Proof. repeat split. Qed.

(** C2 (amended): a session that is Redeemed stays Redeemed under every
    sequence of confirmations, polls and ticks, and a session that
    shows the IP mismatch keeps showing it unless it becomes
    Redeemed. *)
Theorem redeemed_and_ip_mismatch_stay
    (account : Account) (params : Params) (calls : list Call) (s : State) :
  (status s = Redeemed -> status (run account params s calls) = Redeemed) /\
  (status s = IpMismatch ->
   status (run account params s calls) = IpMismatch \/
   status (run account params s calls) = Redeemed).
Proof.
  destruct (run_latches account params calls s) as [Hr Hw]. split.
  - intros Hst. apply status_Redeemed. apply Hr. apply status_Redeemed. exact Hst.
  - intros Hst. apply status_IpMismatch in Hst. destruct Hst as [_ Hflag].
    specialize (Hw Hflag).
    destruct (redeemed (run account params s calls)) eqn:Hred.
    + right. apply status_Redeemed. exact Hred.
    + left. apply status_IpMismatch. auto.
Qed.

Lemma redeemed_and_ip_mismatch_stay_witness :
  let account := mkAccount "0xA11CE" 0 in
  let params := mkParams (Some (mkPublicKey "c0ffee" "10001")) (Some "abc") in
  let calls :=
    [Tick 900000;
     Confirm Rejected (Resolved (mkResponse 500 Rejected)) 900001;
     Poll (Resolved (mkResponse 200 (Resolved (Some (mkOtpStateBody (Some "expired") (Some 1))))))] in
  status (run account params (mkState "123456" 125000 false true "" false) calls) = Redeemed /\
  (status (run account params (mkState "" 360000 false false "" true) calls) = IpMismatch \/
   status (run account params (mkState "" 360000 false false "" true) calls) = Redeemed).
Proof.
  cbv zeta. split.
  - apply (proj1 (redeemed_and_ip_mismatch_stay _ _ _ _)). reflexivity.
  - apply (proj2 (redeemed_and_ip_mismatch_stay _ _ _ _)). reflexivity.
Defined.

(** ** The account handed to the encryption helper *)

Lemma insert_not_nil (a : Account) (l : list Account) : insert a l <> [].
Proof. destruct l as [|b l]; cbn; [|destruct (compareFn a b <=? 0)]; discriminate. Qed.

Lemma sort_nil (l : list Account) : sort l = [] -> l = [].
Proof.
  destruct l as [|a l]; [reflexivity|].
  cbn. intros H. destruct (insert_not_nil _ _ H).
Qed.

(** The head of the sorted list is a listed account of least index. *)
Lemma sort_hd_least (l : list Account) :
  forall a : Account,
    hd_error (sort l) = Some a ->
    In a l /\ forall b : Account, In b l -> derivationIndex a <= derivationIndex b.
Proof.
  induction l as [|x l IH]; intros a; cbn [sort]; [discriminate|].
  destruct (sort l) as [|y rest] eqn:Hsort.
  - apply sort_nil in Hsort. subst l. cbn. intros [= <-].
    split; [auto|]. intros b [<-|[]]. lia.
  - destruct (IH y eq_refl) as [Hin Hleast].
    cbn [insert]. unfold compareFn.
    destruct (derivationIndex x - derivationIndex y <=? 0) eqn:Hcmp; cbn; intros [= <-].
    + apply Z.leb_le in Hcmp. split; [auto|].
      intros b [<-|Hb]; [lia|]. specialize (Hleast b Hb). lia.
    + apply Z.leb_gt in Hcmp. split; [auto|].
      intros b [<-|Hb]; [lia|]. exact (Hleast b Hb).
Qed.

Lemma selectAccount_some (l : list Account) :
  l <> [] -> exists a : Account, selectAccount l = Some a.
Proof.
  intros Hl. unfold selectAccount.
  destruct (sort l) as [|a rest] eqn:Hsort.
  - apply sort_nil in Hsort. contradiction.
  - exists a. reflexivity.
Qed.

(** The only call to the helper is the first effect of the handler. *)
Lemma onEncryptSeedphrase_calls
    (account : Account) (params : Params) (pubKey : PublicKey)
    (encryption : Outcome string)
    (fetched : Outcome (Response BlobApiResponse)) (now : Z) (s : State) :
  publicKey params = Some pubKey ->
  exists rest : list Effect,
    snd (onEncryptSeedphrase account params encryption fetched now s)
    = GetEncryptedMnemonic (address account) (n pubKey) (e pubKey) :: rest /\
    forall addr modulus exponent : string,
      ~ In (GetEncryptedMnemonic addr modulus exponent) rest.
Proof.
  intros Hkey. unfold onEncryptSeedphrase. rewrite Hkey.
  destruct encryption as [blob|]; destruct fetched as [response|]; cbn -[submitted];
    try destruct (submitted response now _) as [s2|msg]; cbn;
    eexists; (split; [reflexivity|]);
    intros addr modulus exponent Hin; cbn in Hin;
    repeat (destruct Hin as [Hin|Hin]; [discriminate Hin|]); exact Hin.
Qed.

(** C10: whatever the order in which the wallet lists its signer
    accounts, the component selects a listed account whose derivation
    index is the lowest, and the address given to the encryption helper
    is the address of that account: the helper is called with it, and
    with no other address. *)
Theorem encryption_uses_lowest_index_account
    (accounts listed : list Account) (params : Params) (pubKey : PublicKey)
    (encryption : Outcome string)
    (fetched : Outcome (Response BlobApiResponse)) (now : Z) (s : State) :
  accounts <> [] ->
  Permutation accounts listed ->
  publicKey params = Some pubKey ->
  exists account : Account,
    selectAccount listed = Some account /\
    In account accounts /\
    (forall other : Account,
        In other accounts -> derivationIndex account <= derivationIndex other) /\
    let effects := snd (onEncryptSeedphrase account params encryption fetched now s) in
    In (GetEncryptedMnemonic (address account) (n pubKey) (e pubKey)) effects /\
    forall addr modulus exponent : string,
      In (GetEncryptedMnemonic addr modulus exponent) effects ->
      addr = address account.
Proof.
  intros Hne Hperm Hkey.
  assert (Hlisted : listed <> []).
  { intros ->. apply Permutation_sym, Permutation_nil in Hperm. contradiction. }
  destruct (selectAccount_some listed Hlisted) as [account Hsel].
  exists account. split; [exact Hsel|].
  destruct (sort_hd_least listed account Hsel) as [Hin Hleast].
  split; [apply (Permutation_in _ (Permutation_sym Hperm)); exact Hin|].
  split.
  { intros other Hother. apply Hleast. apply (Permutation_in _ Hperm). exact Hother. }
  destruct (onEncryptSeedphrase_calls account params pubKey encryption fetched now s Hkey)
    as (rest & Heff & Hrest).
  cbv zeta. rewrite Heff. split; [left; reflexivity|].
  intros addr modulus exponent [Heq|Hlater].
  - injection Heq as <- _ _. reflexivity.
  - destruct (Hrest _ _ _ Hlater).
Qed.

Lemma encryption_uses_lowest_index_account_witness :
  let accounts := [mkAccount "0xB0B" 2; mkAccount "0xA11CE" 0; mkAccount "0xCA401" 1] in
  let listed := [mkAccount "0xCA401" 1; mkAccount "0xB0B" 2; mkAccount "0xA11CE" 0] in
  exists account : Account,
    selectAccount listed = Some account /\
    In account accounts /\
    (forall other : Account,
        In other accounts -> derivationIndex account <= derivationIndex other) /\
    let effects :=
      snd (onEncryptSeedphrase account
             (mkParams (Some (mkPublicKey "c0ffee" "10001")) (Some "abc"))
             (Resolved "blob") Rejected 1000 (initialState 0)) in
    In (GetEncryptedMnemonic (address account) "c0ffee" "10001") effects /\
    forall addr modulus exponent : string,
      In (GetEncryptedMnemonic addr modulus exponent) effects ->
      addr = address account.
Proof.
  cbv zeta.
  apply (encryption_uses_lowest_index_account
           [mkAccount "0xB0B" 2; mkAccount "0xA11CE" 0; mkAccount "0xCA401" 1]
           [mkAccount "0xCA401" 1; mkAccount "0xB0B" 2; mkAccount "0xA11CE" 0]
           (mkParams (Some (mkPublicKey "c0ffee" "10001")) (Some "abc"))
           (mkPublicKey "c0ffee" "10001")).
  - discriminate.
  - apply Permutation_sym.
    apply (perm_trans (perm_swap _ _ _)). apply perm_skip, perm_swap.
  - reflexivity.
Defined.

(** When no two accounts share a derivation index, the selected account
    is the same for every order of the listing. *)
Lemma selectAccount_order_independent (accounts listed : list Account) :
  Permutation accounts listed ->
  (forall a b : Account,
      In a accounts -> In b accounts ->
      derivationIndex a = derivationIndex b -> a = b) ->
  selectAccount listed = selectAccount accounts.
Proof.
  intros Hperm Hinj.
  destruct accounts as [|x accounts'] eqn:Hacc.
  - apply Permutation_nil in Hperm. subst listed. reflexivity.
  - rewrite <- Hacc in *.
    assert (Hne : accounts <> []) by (rewrite Hacc; discriminate).
    assert (Hlisted : listed <> []).
    { intros ->. apply Permutation_sym, Permutation_nil in Hperm. contradiction. }
    destruct (selectAccount_some accounts Hne) as [a Ha].
    destruct (selectAccount_some listed Hlisted) as [b Hb].
    rewrite Ha, Hb. f_equal.
    destruct (sort_hd_least accounts a Ha) as [Hina Hleasta].
    destruct (sort_hd_least listed b Hb) as [Hinb Hleastb].
    apply (Permutation_in _ (Permutation_sym Hperm)) in Hinb.
    apply Hinj; [exact Hinb|exact Hina|].
    specialize (Hleasta b Hinb).
    specialize (Hleastb a (Permutation_in _ Hperm Hina)). lia.
Qed.

(** With that listing the helper receives the address of the account of
    index 0. *)
Example selectAccount_example :
  selectAccount [mkAccount "0xCA401" 1; mkAccount "0xB0B" 2; mkAccount "0xA11CE" 0]
  = Some (mkAccount "0xA11CE" 0).
Proof. reflexivity. Qed.

(** * Further properties of the component *)

(** ** Mounting *)

(** The component throws exactly when the wallet lists no signer
    account; otherwise it selects an account and starts awaiting the
    confirmation, with no code, no message and an expiry six minutes
    after the first render. *)
Theorem mount_throws_iff_no_account (signerAccounts : list Account) (now : Z) :
  (signerAccounts = [] /\ mount signerAccounts now = None) \/
  (exists account : Account,
      In account signerAccounts /\
      mount signerAccounts now = Some (account, initialState now) /\
      status (initialState now) = AwaitingConfirmation /\
      expirationTimestamp (initialState now) = now + 360000 /\
      render (initialState now) = ([], ConfirmationSheet)).
Proof.
  destruct signerAccounts as [|a l].
  - left. split; reflexivity.
  - right.
    destruct (selectAccount_some (a :: l)) as [account Hsel]; [discriminate|].
    exists account. split; [apply (sort_hd_least _ _ Hsel)|].
    unfold mount. rewrite Hsel. repeat split.
Qed.

(** ** Sessions in which nothing has been submitted *)

(** As long as no code is stored, a call that is not a confirmation
    with a public key sends nothing and touches no cell but
    [expired]. *)
Lemma idle_step (account : Account) (params : Params) (s : State) (c : Call) :
  truthy (OTP s) = false ->
  publicKey params = None \/ isConfirm c = false ->
  stepEffects account params s c = [] /\
  exists b : bool, step account params s c = setExpired b s.
Proof.
  intros Hotp Hidle. destruct c as [encryption fetched now|fetched|now].
  - destruct Hidle as [Hkey|Hc]; [|discriminate Hc].
    cbn [stepEffects step]. unfold onEncryptSeedphrase. rewrite Hkey. cbn [fst snd].
    split; [reflexivity|]. exists (expired s). destruct s; reflexivity.
  - cbn [stepEffects step]. unfold checkOTPState. rewrite Hotp. cbn [negb orb fst snd].
    split; [reflexivity|]. exists (expired s). destruct s; reflexivity.
  - cbn [stepEffects step]. split; [reflexivity|].
    exists (expirationTimestamp s - now <=? 0). reflexivity.
Qed.

Lemma idle_run (account : Account) (params : Params) (calls : list Call) :
  forall s : State,
    truthy (OTP s) = false ->
    publicKey params = None \/ forallb (fun c => negb (isConfirm c)) calls = true ->
    runEffects account params s calls = [] /\
    exists b : bool, run account params s calls = setExpired b s.
Proof.
  induction calls as [|c calls IH]; intros s Hotp Hidle.
  - split; [reflexivity|]. exists (expired s). destruct s; reflexivity.
  - assert (Hc : publicKey params = None \/ isConfirm c = false).
    { destruct Hidle as [Hkey|Hall]; [left; exact Hkey|right].
      cbn [forallb] in Hall. apply andb_prop in Hall. destruct Hall as [Hc _].
      destruct (isConfirm c); [discriminate Hc|reflexivity]. }
    assert (Hrest : publicKey params = None
                    \/ forallb (fun c => negb (isConfirm c)) calls = true).
    { destruct Hidle as [Hkey|Hall]; [left; exact Hkey|right].
      cbn [forallb] in Hall. apply andb_prop in Hall. apply Hall. }
    destruct (idle_step account params s c Hotp Hc) as [Heff [b Hstep]].
    cbn [runEffects run fold_left]. rewrite Heff, Hstep.
    destruct (IH (setExpired b s) Hotp Hrest) as [Heffs [b' Hrun]].
    split; [exact Heffs|].
    exists b'. unfold run in Hrun. rewrite Hrun. reflexivity.
Qed.

(** Without a public key in the parameters nothing ever happens: under
    every sequence of confirmations, polls and ticks the session calls
    neither the encryption helper nor the pairing service, and no cell
    other than [expired] changes; no code is ever stored. *)
Theorem no_public_key_no_request
    (account : Account) (params : Params) (calls : list Call) (s : State) :
  publicKey params = None ->
  truthy (OTP s) = false ->
  runEffects account params s calls = [] /\
  run account params s calls = setExpired (expired (run account params s calls)) s.
Proof.
  intros Hkey Hotp.
  destruct (idle_run account params calls s Hotp (or_introl Hkey)) as [Heff [b Hrun]].
  split; [exact Heff|]. rewrite Hrun. reflexivity.
Qed.

Lemma no_public_key_no_request_witness :
  let account := mkAccount "0xA11CE" 0 in
  let params := mkParams None (Some "abc") in
  let calls :=
    [Confirm (Resolved "blob")
       (Resolved (mkResponse 200 (Resolved (Some (mkBlobBody (Some "123456")))))) 1000;
     Poll (Resolved (mkResponse 200 (Resolved (Some (mkOtpStateBody (Some "redeemed") None)))));
     Tick 2000] in
  runEffects account params (initialState 0) calls = [] /\
  run account params (initialState 0) calls
  = setExpired (expired (run account params (initialState 0) calls)) (initialState 0).
Proof.
  cbv zeta. apply no_public_key_no_request; reflexivity.
Defined.

(** A session that is never confirmed sends nothing, polls included,
    and its status after a tick depends on the clock alone: it is
    Expired when six minutes have passed since the first render and it
    awaits the confirmation otherwise, whatever was shown before. *)
Theorem unconfirmed_session_expires_after_six_minutes
    (account : Account) (params : Params) (calls : list Call) (mounted now : Z) :
  forallb (fun c => negb (isConfirm c)) calls = true ->
  runEffects account params (initialState mounted) (calls ++ [Tick now]) = [] /\
  status (run account params (initialState mounted) (calls ++ [Tick now]))
  = if mounted + 6 * ONE_MINUTE_MS <=? now then Expired else AwaitingConfirmation.
Proof.
  intros Hcalls.
  assert (Hall : forallb (fun c => negb (isConfirm c)) (calls ++ [Tick now]) = true).
  { rewrite forallb_app, Hcalls. reflexivity. }
  destruct (idle_run account params (calls ++ [Tick now]) (initialState mounted)
              eq_refl (or_intror Hall)) as [Heff _].
  split; [exact Heff|].
  destruct (idle_run account params calls (initialState mounted)
              eq_refl (or_intror Hcalls)) as [_ [b Hrun]].
  unfold run in *. rewrite fold_left_app, Hrun. cbn [fold_left step].
  unfold tick, status, render, setExpired, initialState.
  cbn [expirationTimestamp redeemed showIPWarning expired OTP error snd].
  destruct (mounted + 6 * ONE_MINUTE_MS <=? now) eqn:Hle.
  - apply Z.leb_le in Hle.
    replace (mounted + 6 * ONE_MINUTE_MS - now <=? 0) with true; [reflexivity|].
    symmetry. apply Z.leb_le. lia.
  - apply Z.leb_gt in Hle.
    replace (mounted + 6 * ONE_MINUTE_MS - now <=? 0) with false; [reflexivity|].
    symmetry. apply Z.leb_gt. lia.
Qed.

Lemma unconfirmed_session_expires_after_six_minutes_witness :
  let account := mkAccount "0xA11CE" 0 in
  let params := mkParams (Some (mkPublicKey "c0ffee" "10001")) (Some "abc") in
  let calls :=
    [Tick 400000;
     Poll (Resolved (mkResponse 200 (Resolved (Some (mkOtpStateBody (Some "redeemed") None)))))] in
  runEffects account params (initialState 100000) (calls ++ [Tick 459999]) = [] /\
  status (run account params (initialState 100000) (calls ++ [Tick 459999]))
  = if 100000 + 6 * ONE_MINUTE_MS <=? 459999 then Expired else AwaitingConfirmation.
Proof.
  cbv zeta. apply unconfirmed_session_expires_after_six_minutes. reflexivity.
Defined.

(** ** More on confirm *)

Lemma status_AwaitingConfirmation (s : State) :
  status s = AwaitingConfirmation <->
  redeemed s = false /\ showIPWarning s = false /\ expired s = false /\
  truthy (OTP s) = false /\ truthy (error s) = false.
Proof.
  unfold status, render; cbn [snd]. split.
  - destruct (redeemed s); [discriminate|].
    destruct (showIPWarning s); [discriminate|].
    destruct (expired s); [discriminate|].
    destruct (truthy (OTP s)); [discriminate|].
    destruct (truthy (error s)); [discriminate|auto].
  - intros (-> & -> & -> & -> & ->). reflexivity.
Qed.

Lemma ok_not_ip_mismatch {B : Type} (response : Response B) :
  ok response = true -> (status_code response =? IP_MISMATCH_STATUS_CODE) = false.
Proof.
  unfold ok, IP_MISMATCH_STATUS_CODE. intros Hok.
  apply andb_prop in Hok. destruct Hok as [_ Hle]. apply Z.leb_le in Hle.
  apply Z.eqb_neq. lia.
Qed.

Lemma submitFailure_threw (response : Response BlobApiResponse) (now : Z) (s : State) :
  submitFailure (Resolved response) ->
  exists message : string, submitted response now s = Threw message.
Proof.
  intros Hfail. unfold submitted.
  inversion Hfail as [|r Hcode Hok|r Hok Hjson|r data Hok Hjson Hotp]; subst r.
  - apply Z.eqb_neq in Hcode. rewrite Hcode, Hok. eexists. reflexivity.
  - rewrite (ok_not_ip_mismatch _ Hok), Hok, Hjson. eexists. reflexivity.
  - rewrite (ok_not_ip_mismatch _ Hok), Hok, Hjson. cbn [negb].
    destruct (match data with Some d => blob_otp d | None => None end) as [code|];
      [|eexists; reflexivity].
    cbn [truthy_opt] in Hotp. rewrite Hotp. eexists. reflexivity.
Qed.

Lemma submitted_success
    (response : Response BlobApiResponse) (code : string) (now : Z) (s : State) :
  ok response = true ->
  json response = Resolved (Some (mkBlobBody (Some code))) ->
  truthy code = true ->
  submitted response now s
  = Completed (setOTP code (setExpirationTimestamp (now + ONE_MINUTE_MS * 2) s)).
Proof.
  intros Hok Hjson Hcode. unfold submitted.
  rewrite (ok_not_ip_mismatch _ Hok), Hok, Hjson. cbn [negb blob_otp].
  rewrite Hcode. reflexivity.
Qed.

(** With a public key, one confirmation calls the encryption helper
    once and then posts one blob, whatever the helper and the server
    answer: there is no second attempt.  The blob posted is the result
    of the helper, and it goes with the [uuid] of the parameters. *)
Theorem confirm_sends_one_blob
    (account : Account) (params : Params) (pubKey : PublicKey)
    (encryption : Outcome string)
    (fetched : Outcome (Response BlobApiResponse)) (now : Z) (s : State) :
  publicKey params = Some pubKey ->
  requests (snd (onEncryptSeedphrase account params encryption fetched now s))
  = [GetEncryptedMnemonic (address account) (n pubKey) (e pubKey);
     PostBlob (uuid params) (postedBlob encryption)].
Proof.
  intros Hkey. unfold onEncryptSeedphrase. rewrite Hkey.
  destruct encryption as [blob|]; destruct fetched as [response|]; cbn -[submitted];
    try destruct (submitted response now _) as [s2|msg]; reflexivity.
Qed.

Lemma confirm_sends_one_blob_witness :
  requests (snd (onEncryptSeedphrase (mkAccount "0xA11CE" 0)
                   (mkParams (Some (mkPublicKey "c0ffee" "10001")) (Some "abc"))
                   (Resolved "blob") (Resolved (mkResponse 503 Rejected)) 1000
                   (initialState 0)))
  = [GetEncryptedMnemonic "0xA11CE" "c0ffee" "10001"; PostBlob (Some "abc") "blob"].
Proof.
  exact (confirm_sends_one_blob (mkAccount "0xA11CE" 0)
           (mkParams (Some (mkPublicKey "c0ffee" "10001")) (Some "abc"))
           (mkPublicKey "c0ffee" "10001")
           (Resolved "blob") (Resolved (mkResponse 503 Rejected)) 1000
           (initialState 0) eq_refl).
Defined.

(** A submission that fails (the request is rejected, the status is
    neither 401 nor a success, or the body of a success gives no code)
    changes one cell only: the message becomes the one of the missing
    code, which replaces the message of a failed encryption as well.
    A session that awaited the confirmation then shows the error
    sheet. *)
Theorem failed_submission_records_no_code
    (account : Account) (params : Params) (pubKey : PublicKey)
    (encryption : Outcome string)
    (fetched : Outcome (Response BlobApiResponse)) (now : Z) (s : State) :
  publicKey params = Some pubKey ->
  submitFailure fetched ->
  let s' := fst (onEncryptSeedphrase account params encryption fetched now s) in
  s' = setError (t "scantastic.error.noCode") s /\
  (status s = AwaitingConfirmation ->
   status s' = Failed (t "scantastic.error.noCode") /\
   snd (render s') = ErrorSheet (t "scantastic.error.noCode")).
Proof.
  intros Hkey Hfail. cbv zeta.
  assert (Hs : fst (onEncryptSeedphrase account params encryption fetched now s)
               = setError (t "scantastic.error.noCode") s).
  { unfold onEncryptSeedphrase. rewrite Hkey.
    destruct fetched as [response|].
    - destruct encryption as [blob|]; cbn -[submitted t];
        match goal with
        | |- context [submitted response now ?s1] =>
            destruct (submitFailure_threw response now s1 Hfail) as [msg ->]
        end; reflexivity.
    - destruct encryption as [blob|]; reflexivity. }
  rewrite Hs. split; [reflexivity|].
  intros Hst. apply status_AwaitingConfirmation in Hst.
  destruct Hst as (Hr & Hw & He & Hotp & _).
  unfold status, render. cbn. rewrite Hr, Hw, He, Hotp. split; reflexivity.
Qed.

Lemma failed_submission_records_no_code_witness :
  let s' :=
    fst (onEncryptSeedphrase (mkAccount "0xA11CE" 0)
           (mkParams (Some (mkPublicKey "c0ffee" "10001")) (Some "abc"))
           Rejected
           (Resolved (mkResponse 200 (Resolved (Some (mkBlobBody (Some ""))))))
           1000 (initialState 0)) in
  s' = setError (t "scantastic.error.noCode") (initialState 0) /\
  status s' = Failed (t "scantastic.error.noCode").
Proof.
  cbv zeta.
  pose proof (failed_submission_records_no_code (mkAccount "0xA11CE" 0)
                (mkParams (Some (mkPublicKey "c0ffee" "10001")) (Some "abc"))
                (mkPublicKey "c0ffee" "10001") Rejected
                (Resolved (mkResponse 200 (Resolved (Some (mkBlobBody (Some ""))))))
                1000 (initialState 0) eq_refl
                (SubmitNoOtp (mkResponse 200 (Resolved (Some (mkBlobBody (Some "")))))
                   (Some (mkBlobBody (Some ""))) eq_refl eq_refl eq_refl))
    as [Hs Hst].
  split; [exact Hs|]. apply Hst. reflexivity.
Defined.

(** A confirmation that succeeds restarts the clock: at the next tick
    the session is Expired when two minutes have passed since the
    answer was read and awaits redemption otherwise, whatever was left
    of the scan window and even if the session had expired
    meanwhile. *)
Theorem confirm_restarts_clock
    (account : Account) (params : Params) (pubKey : PublicKey)
    (encryption : Outcome string) (response : Response BlobApiResponse)
    (code : string) (now later : Z) (s : State) :
  publicKey params = Some pubKey ->
  ok response = true ->
  json response = Resolved (Some (mkBlobBody (Some code))) ->
  truthy code = true ->
  redeemed s = false -> showIPWarning s = false ->
  status (tick later
            (fst (onEncryptSeedphrase account params encryption (Resolved response) now s)))
  = if now + 2 * ONE_MINUTE_MS <=? later then Expired else AwaitingRedemption.
Proof.
  intros Hkey Hok Hjson Hcode Hr Hw.
  assert (Hs : exists s1 : State,
             redeemed s1 = false /\ showIPWarning s1 = false /\
             fst (onEncryptSeedphrase account params encryption (Resolved response) now s)
             = setOTP code (setExpirationTimestamp (now + ONE_MINUTE_MS * 2) s1)).
  { unfold onEncryptSeedphrase. rewrite Hkey.
    destruct encryption as [blob|]; cbn -[submitted];
      rewrite (submitted_success response code now _ Hok Hjson Hcode);
      eexists; (split; [|split; [|reflexivity]]); assumption. }
  destruct Hs as (s1 & Hr1 & Hw1 & ->).
  destruct (now + 2 * ONE_MINUTE_MS <=? later) eqn:Hle.
  - apply Z.leb_le in Hle. apply status_Expired. unfold tick. cbn.
    repeat split; [exact Hr1|exact Hw1|]. apply Z.leb_le.
    unfold ONE_MINUTE_MS, ONE_SECOND_MS in *. lia.
  - apply Z.leb_gt in Hle. apply status_AwaitingRedemption. unfold tick. cbn -[truthy].
    repeat split; [exact Hr1|exact Hw1| |exact Hcode]. apply Z.leb_gt.
    unfold ONE_MINUTE_MS, ONE_SECOND_MS in *. lia.
Qed.

Lemma confirm_restarts_clock_witness :
  status (tick 480000
            (fst (onEncryptSeedphrase (mkAccount "0xA11CE" 0)
                    (mkParams (Some (mkPublicKey "c0ffee" "10001")) (Some "abc"))
                    (Resolved "blob")
                    (Resolved (mkResponse 200 (Resolved (Some (mkBlobBody (Some "123456"))))))
                    400000 (tick 390000 (initialState 0)))))
  = if 400000 + 2 * ONE_MINUTE_MS <=? 480000 then Expired else AwaitingRedemption.
Proof.
  apply (confirm_restarts_clock (mkAccount "0xA11CE" 0)
           (mkParams (Some (mkPublicKey "c0ffee" "10001")) (Some "abc"))
           (mkPublicKey "c0ffee" "10001") (Resolved "blob")
           (mkResponse 200 (Resolved (Some (mkBlobBody (Some "123456")))))
           "123456" 400000 480000); reflexivity.
Defined.

(** ** More on poll *)

(** A poll that goes out: a code is stored and the parameters hold a
    [uuid]. *)
Lemma checkOTPState_active
    (params : Params) (id : string)
    (fetched : Outcome (Response OtpStateApiResponse)) (s : State) :
  truthy (OTP s) = true ->
  uuid params = Some id -> truthy id = true ->
  checkOTPState params fetched s
  = match match fetched with
          | Resolved response => polled response s
          | Rejected => Threw "fetch failed"
          end with
    | Completed s' => (s', [PostOtpState id])
    | Threw _ => (s, [PostOtpState id; LoggerError "checkOTPState"])
    end.
Proof.
  intros Hotp Huuid Hid. unfold checkOTPState.
  rewrite Hotp, Huuid. cbn [truthy_opt]. rewrite Hid. reflexivity.
Qed.

(** What the try block does with an answer that carries an OTP state. *)
Lemma polled_answer
    (response : Response OtpStateApiResponse) (data : OtpStateApiResponse)
    (otpState : string) (s : State) :
  ok response = true ->
  json response = Resolved (Some data) ->
  otp data = Some otpState -> truthy otpState = true ->
  polled response s
  = Completed
      (let s1 :=
         match expiresAtInSeconds data with
         | Some v => if negb (v =? 0) then setExpirationTimestamp (v * ONE_SECOND_MS) s else s
         | None => s
         end in
       let s2 := if String.eqb otpState OtpState.Redeemed then setRedeemed true s1 else s1 in
       if String.eqb otpState OtpState.Expired then setExpired true s2 else s2).
Proof.
  intros Hok Hjson Hstate Htruthy. unfold polled.
  rewrite Hok, Hjson, Hstate, Htruthy. reflexivity.
Qed.

(** A poll answered "expired" while the session awaits redemption makes
    it Expired: the timeout sheet replaces the code sheet, and nothing
    is dispatched to the store. *)
Theorem poll_expired_shows_timeout
    (params : Params) (id : string) (response : Response OtpStateApiResponse)
    (data : OtpStateApiResponse) (s : State) :
  status s = AwaitingRedemption ->
  uuid params = Some id -> truthy id = true ->
  ok response = true ->
  json response = Resolved (Some data) ->
  otp data = Some OtpState.Expired ->
  let s' := fst (checkOTPState params (Resolved response) s) in
  status s' = Expired /\ render s' = ([], TimeoutSheet) /\ OTP s' = OTP s.
Proof.
  intros Hst Huuid Hid Hok Hjson Hstate.
  apply status_AwaitingRedemption in Hst. destruct Hst as (Hr & Hw & _ & Hotp).
  cbv zeta. rewrite (checkOTPState_active params id _ s Hotp Huuid Hid).
  rewrite (polled_answer response data OtpState.Expired s Hok Hjson Hstate eq_refl).
  cbn [fst]. change (String.eqb OtpState.Expired OtpState.Redeemed) with false.
  change (String.eqb OtpState.Expired OtpState.Expired) with true. cbv zeta.
  destruct (expiresAtInSeconds data) as [v|]; [destruct (negb (v =? 0))|];
    (split; [apply status_Expired; cbn; auto|]);
    unfold render; cbn; rewrite Hr, Hw; auto.
Qed.

Lemma poll_expired_shows_timeout_witness :
  let s' :=
    fst (checkOTPState (mkParams None (Some "abc"))
           (Resolved (mkResponse 200
              (Resolved (Some (mkOtpStateBody (Some "expired") (Some 125))))))
           (mkState "123456" 125000 false false "" false)) in
  status s' = Expired /\ render s' = ([], TimeoutSheet) /\ OTP s' = "123456".
Proof.
  cbv zeta.
  apply (poll_expired_shows_timeout (mkParams None (Some "abc")) "abc"
           (mkResponse 200 (Resolved (Some (mkOtpStateBody (Some "expired") (Some 125)))))
           (mkOtpStateBody (Some "expired") (Some 125))
           (mkState "123456" 125000 false false "" false)); reflexivity.
Defined.

(** A poll answered with a state that is neither "redeemed" nor
    "expired" ("pending", say) changes neither the status nor the sheet
    shown, whatever expiry the answer carries. *)
Theorem poll_pending_keeps_status
    (params : Params) (response : Response OtpStateApiResponse)
    (data : OtpStateApiResponse) (otpState : string) (s : State) :
  ok response = true ->
  json response = Resolved (Some data) ->
  otp data = Some otpState ->
  String.eqb otpState OtpState.Redeemed = false ->
  String.eqb otpState OtpState.Expired = false ->
  let s' := fst (checkOTPState params (Resolved response) s) in
  status s' = status s /\ render s' = render s.
Proof.
  intros Hok Hjson Hstate Hnr Hne. cbv zeta. unfold checkOTPState.
  destruct (negb (truthy (OTP s)) || negb (truthy_opt (uuid params))); [auto|].
  unfold polled. rewrite Hok, Hjson, Hstate, Hnr, Hne. cbn [negb].
  destruct (negb (truthy otpState)); [auto|].
  destruct (expiresAtInSeconds data) as [v|]; [destruct (negb (v =? 0))|]; auto.
Qed.

Lemma poll_pending_keeps_status_witness :
  let s := mkState "123456" 125000 false false "" false in
  let s' :=
    fst (checkOTPState (mkParams None (Some "abc"))
           (Resolved (mkResponse 200
              (Resolved (Some (mkOtpStateBody (Some "pending") (Some 300))))))
           s) in
  status s' = status s /\ render s' = render s.
Proof.
  cbv zeta.
  apply (poll_pending_keeps_status (mkParams None (Some "abc"))
           (mkResponse 200 (Resolved (Some (mkOtpStateBody (Some "pending") (Some 300)))))
           (mkOtpStateBody (Some "pending") (Some 300)) "pending"); reflexivity.
Defined.

(** Once a poll has brought an expiry from the server, the next tick
    decides by that expiry alone: the session is Expired when the
    server's expiry has passed on the local clock and awaits redemption
    otherwise, and this also when the same answer said "expired". *)
Theorem tick_after_poll_follows_server_expiry
    (params : Params) (id : string) (response : Response OtpStateApiResponse)
    (data : OtpStateApiResponse) (otpState : string) (v now : Z) (s : State) :
  status s = AwaitingRedemption ->
  uuid params = Some id -> truthy id = true ->
  ok response = true ->
  json response = Resolved (Some data) ->
  otp data = Some otpState -> truthy otpState = true ->
  String.eqb otpState OtpState.Redeemed = false ->
  expiresAtInSeconds data = Some v -> v <> 0 ->
  status (tick now (fst (checkOTPState params (Resolved response) s)))
  = if v * ONE_SECOND_MS <=? now then Expired else AwaitingRedemption.
Proof.
  intros Hst Huuid Hid Hok Hjson Hstate Htruthy Hnr Hexp Hv.
  apply status_AwaitingRedemption in Hst. destruct Hst as (Hr & Hw & _ & Hotp).
  rewrite (checkOTPState_active params id _ s Hotp Huuid Hid).
  rewrite (polled_answer response data otpState s Hok Hjson Hstate Htruthy).
  rewrite Hexp, Hnr. apply Z.eqb_neq in Hv. rewrite Hv. cbn [negb fst]. cbv zeta.
  destruct (v * ONE_SECOND_MS <=? now) eqn:Hle.
  - apply Z.leb_le in Hle. apply status_Expired.
    destruct (String.eqb otpState OtpState.Expired); unfold tick; cbn;
      (repeat split; [exact Hr|exact Hw|]); apply Z.leb_le; lia.
  - apply Z.leb_gt in Hle. apply status_AwaitingRedemption.
    destruct (String.eqb otpState OtpState.Expired); unfold tick; cbn -[truthy];
      (repeat split; [exact Hr|exact Hw| |exact Hotp]); apply Z.leb_gt; lia.
Qed.

Lemma tick_after_poll_follows_server_expiry_witness :
  status (tick 130000
            (fst (checkOTPState (mkParams None (Some "abc"))
                    (Resolved (mkResponse 200
                       (Resolved (Some (mkOtpStateBody (Some "expired") (Some 300))))))
                    (mkState "123456" 125000 false false "" false))))
  = if 300 * ONE_SECOND_MS <=? 130000 then Expired else AwaitingRedemption.
Proof.
  apply (tick_after_poll_follows_server_expiry (mkParams None (Some "abc")) "abc"
           (mkResponse 200 (Resolved (Some (mkOtpStateBody (Some "expired") (Some 300)))))
           (mkOtpStateBody (Some "expired") (Some 300)) "expired" 300 130000);
    try reflexivity.
  discriminate.
Defined.

(** ** Invariants of a session *)

Lemma submitted_code (response : Response BlobApiResponse) (now : Z) (s s' : State) :
  submitted response now s = Completed s' ->
  OTP s' = OTP s \/ truthy (OTP s') = true.
Proof.
  unfold submitted.
  destruct (status_code response =? IP_MISMATCH_STATUS_CODE).
  - intros [= <-]. left. reflexivity.
  - destruct (negb (ok response)); [discriminate|].
    destruct (json response) as [[[[code|]]|]|]; cbn; try discriminate.
    destruct (truthy code) eqn:Hcode; [|discriminate].
    intros [= <-]. right. exact Hcode.
Qed.

Lemma step_keeps_code (account : Account) (params : Params) (s : State) (c : Call) :
  truthy (OTP s) = true -> truthy (OTP (step account params s c)) = true.
Proof.
  intros Hotp. destruct c as [encryption fetched now|fetched|now]; cbn [step].
  - unfold onEncryptSeedphrase.
    destruct (publicKey params) as [pubKey|]; [|exact Hotp].
    destruct encryption as [blob|]; destruct fetched as [response|]; cbn -[submitted truthy];
      try exact Hotp;
      match goal with
      | |- context [submitted response now ?s1] =>
          destruct (submitted response now s1) as [s2|msg] eqn:Hs;
          [apply submitted_code in Hs; destruct Hs as [Hs|Hs];
           [cbn -[truthy]; rewrite Hs; exact Hotp | exact Hs]
          | exact Hotp]
      end.
  - unfold checkOTPState.
    destruct (negb (truthy (OTP s)) || negb (truthy_opt (uuid params))); [exact Hotp|].
    destruct fetched as [response|]; [|exact Hotp].
    destruct (polled response s) as [s2|msg] eqn:Hp; [|exact Hotp].
    apply polled_flags in Hp. destruct Hp as (_ & _ & _ & Hcode & _).
    cbn -[truthy]. rewrite Hcode. exact Hotp.
  - exact Hotp.
Qed.

(** A code, once stored, is never lost: after every sequence of
    confirmations, polls and ticks the session still holds a non-empty
    code (a later confirmation may replace it by another one). *)
Theorem code_once_stored_stays
    (account : Account) (params : Params) (calls : list Call) (s : State) :
  truthy (OTP s) = true ->
  truthy (OTP (run account params s calls)) = true.
Proof.
  revert s. induction calls as [|c calls IH]; intros s Hotp; [exact Hotp|].
  cbn [run fold_left]. apply IH. apply step_keeps_code. exact Hotp.
Qed.

Lemma code_once_stored_stays_witness :
  truthy (OTP (run (mkAccount "0xA11CE" 0)
                 (mkParams (Some (mkPublicKey "c0ffee" "10001")) (Some "abc"))
                 (mkState "123456" 125000 false false "" false)
                 [Confirm Rejected (Resolved (mkResponse 200 (Resolved (Some (mkBlobBody (Some ""))))))
                    9000;
                  Tick 500000;
                  Poll (Resolved (mkResponse 200
                          (Resolved (Some (mkOtpStateBody (Some "expired") None)))))]))
  = true.
Proof. apply code_once_stored_stays. reflexivity. Defined.

Lemma stepEffects_parameters
    (account : Account) (params : Params) (s : State) (c : Call) (eff : Effect) :
  In eff (stepEffects account params s c) ->
  match eff with
  | GetEncryptedMnemonic addr modulus exponent =>
      addr = address account /\
      publicKey params = Some (mkPublicKey modulus exponent)
  | PostBlob id _ => id = uuid params
  | PostOtpState id => uuid params = Some id /\ truthy id = true
  | LoggerError _ => True
  end.
Proof.
  destruct c as [encryption fetched now|fetched|now]; cbn [stepEffects].
  - unfold onEncryptSeedphrase.
    destruct (publicKey params) as [[modulus exponent]|]; [|intros []].
    destruct encryption as [blob|]; destruct fetched as [response|]; cbn -[submitted];
      try destruct (submitted response now _) as [s2|msg]; cbn;
      intros Hin;
      repeat (destruct Hin as [<-|Hin]; [cbn; auto|]); destruct Hin.
  - unfold checkOTPState.
    destruct (truthy (OTP s)); [|intros []].
    destruct (uuid params) as [id|]; [|intros []].
    cbn [truthy_opt negb orb].
    destruct (truthy id) eqn:Hid; [|intros []].
    cbn [negb].
    destruct fetched as [response|]; [destruct (polled response s) as [s2|msg]|];
      cbn; intros Hin;
      repeat (destruct Hin as [<-|Hin]; [cbn; auto|]); destruct Hin.
  - intros [].
Qed.

(** Whatever a session sends carries its own parameters: every poll
    goes to the non-empty [uuid] of the parameters, every blob is
    posted with that [uuid], and every call to the encryption helper
    gives the address of the selected account and the two components
    of the public key. *)
Theorem requests_carry_session_parameters
    (account : Account) (params : Params) (calls : list Call) (s : State) (eff : Effect) :
  In eff (runEffects account params s calls) ->
  match eff with
  | GetEncryptedMnemonic addr modulus exponent =>
      addr = address account /\
      publicKey params = Some (mkPublicKey modulus exponent)
  | PostBlob id _ => id = uuid params
  | PostOtpState id => uuid params = Some id /\ truthy id = true
  | LoggerError _ => True
  end.
Proof.
  revert s. induction calls as [|c calls IH]; intros s; cbn [runEffects]; [intros []|].
  intros Hin. apply in_app_or in Hin. destruct Hin as [Hin|Hin].
  - exact (stepEffects_parameters account params s c eff Hin).
  - exact (IH _ Hin).
Qed.

Lemma requests_carry_session_parameters_witness :
  Some "abc" = Some "abc" /\ truthy "abc" = true.
Proof.
  exact (requests_carry_session_parameters (mkAccount "0xA11CE" 0)
           (mkParams (Some (mkPublicKey "c0ffee" "10001")) (Some "abc"))
           [Confirm (Resolved "blob")
              (Resolved (mkResponse 200 (Resolved (Some (mkBlobBody (Some "123456")))))) 1000;
            Poll Rejected]
           (initialState 0) (PostOtpState "abc")
           (or_intror (or_intror (or_introl eq_refl)))).
Defined.

(** Only a poll can redeem a session: a sequence of confirmations and
    ticks leaves the cell [redeemed] as it was. *)
Theorem only_poll_redeems
    (account : Account) (params : Params) (calls : list Call) (s : State) :
  forallb (fun c => negb (isPoll c)) calls = true ->
  redeemed (run account params s calls) = redeemed s.
Proof.
  revert s. induction calls as [|c calls IH]; intros s Hall; [reflexivity|].
  cbn [forallb] in Hall. apply andb_prop in Hall. destruct Hall as [Hc Hall].
  cbn [run fold_left]. unfold run in IH. rewrite (IH _ Hall).
  destruct c as [encryption fetched now|fetched|now]; cbn [step].
  - pose proof (onEncryptSeedphrase_flags account params encryption fetched now s) as H.
    cbv zeta in H. apply H.
  - discriminate Hc.
  - reflexivity.
Qed.

Lemma only_poll_redeems_witness :
  redeemed (run (mkAccount "0xA11CE" 0)
              (mkParams (Some (mkPublicKey "c0ffee" "10001")) (Some "abc"))
              (initialState 0)
              [Confirm (Resolved "blob")
                 (Resolved (mkResponse 200 (Resolved (Some (mkBlobBody (Some "123456"))))))
                 1000;
               Tick 200000])
  = redeemed (initialState 0).
Proof. apply only_poll_redeems. reflexivity. Defined.

(** Only a confirmation can raise the IP warning, store a code or
    change the message: a sequence of polls and ticks leaves the cells
    [showIPWarning], [OTP] and [error] as they were. *)
Theorem only_confirm_sets_code_and_messages
    (account : Account) (params : Params) (calls : list Call) (s : State) :
  forallb (fun c => negb (isConfirm c)) calls = true ->
  let s' := run account params s calls in
  showIPWarning s' = showIPWarning s /\ OTP s' = OTP s /\ error s' = error s.
Proof.
  revert s. induction calls as [|c calls IH]; intros s Hall; [cbn; auto|].
  cbn [forallb] in Hall. apply andb_prop in Hall. destruct Hall as [Hc Hall].
  cbv zeta. cbn [run fold_left]. specialize (IH (step account params s c) Hall).
  cbv zeta in IH. unfold run in IH. destruct IH as (-> & -> & ->).
  destruct c as [encryption fetched now|fetched|now]; cbn [step].
  - discriminate Hc.
  - unfold checkOTPState.
    destruct (negb (truthy (OTP s)) || negb (truthy_opt (uuid params))); [cbn; auto|].
    destruct fetched as [response|]; [|cbn; auto].
    destruct (polled response s) as [s2|msg] eqn:Hp; [|cbn; auto].
    apply polled_flags in Hp. cbn [fst]. tauto.
  - cbn. auto.
Qed.

Lemma only_confirm_sets_code_and_messages_witness :
  let s := mkState "123456" 125000 false false "shown" false in
  let s' :=
    run (mkAccount "0xA11CE" 0) (mkParams None (Some "abc")) s
      [Poll (Resolved (mkResponse 200
               (Resolved (Some (mkOtpStateBody (Some "redeemed") (Some 7))))));
       Tick 1] in
  showIPWarning s' = showIPWarning s /\ OTP s' = OTP s /\ error s' = error s.
Proof.
  cbv zeta. apply only_confirm_sets_code_and_messages. reflexivity.
Defined.

(** Over the whole life of any session the completion signal is
    dispatched at most once: either the modal is still open, nothing
    has been dispatched and the session is not redeemed, or the modal
    is closed and what has been dispatched is the signal, once. *)
Theorem completion_dispatched_at_most_once
    (account : Account) (params : Params) (calls : list Call) (s0 : State) :
  redeemed s0 = false ->
  (session account params (Open s0) calls
   = (Open (run account params s0 calls), []) /\
   redeemed (run account params s0 calls) = false) \/
  session account params (Open s0) calls = (Closed, completionSignal).
Proof.
  revert s0. induction calls as [|c calls IH]; intros s0 Hr.
  - left. split; [reflexivity|exact Hr].
  - cbn [session run fold_left].
    destruct (redeemed (step account params s0 c)) eqn:Hstep.
    + right. rewrite (commit_redeemed _ Hstep), session_Closed. reflexivity.
    + rewrite (commit_not_redeemed _ Hstep).
      destruct (IH _ Hstep) as [[Hopen Hred]|Hclosed].
      * left. rewrite Hopen. split; [reflexivity|exact Hred].
      * right. rewrite Hclosed. reflexivity.
Qed.

Lemma completion_dispatched_at_most_once_witness :
  let account := mkAccount "0xA11CE" 0 in
  let params := mkParams (Some (mkPublicKey "c0ffee" "10001")) (Some "abc") in
  let redeem :=
    Poll (Resolved (mkResponse 200 (Resolved (Some (mkOtpStateBody (Some "redeemed") None))))) in
  let calls :=
    [Confirm (Resolved "blob")
       (Resolved (mkResponse 200 (Resolved (Some (mkBlobBody (Some "123456")))))) 1000;
     redeem; Tick 3000; redeem] in
  (session account params (Open (initialState 0)) calls
   = (Open (run account params (initialState 0) calls), []) /\
   redeemed (run account params (initialState 0) calls) = false) \/
  session account params (Open (initialState 0)) calls = (Closed, completionSignal).
Proof.
  cbv zeta. apply completion_dispatched_at_most_once. reflexivity.
Defined.

(** ** Ties between derivation indices *)

(** When several accounts share the lowest derivation index, the one
    listed first is selected: every account listed before the selected
    one has a strictly greater index, and no account listed after it
    has a lower one. *)
Theorem selectAccount_first_of_least (signerAccounts : list Account) (account : Account) :
  selectAccount signerAccounts = Some account ->
  exists before after : list Account,
    signerAccounts = before ++ account :: after /\
    (forall other : Account,
        In other before -> derivationIndex account < derivationIndex other) /\
    (forall other : Account,
        In other after -> derivationIndex account <= derivationIndex other).
Proof.
  unfold selectAccount. revert account.
  induction signerAccounts as [|x l IH]; intros account; cbn [sort]; [discriminate|].
  destruct (sort l) as [|y rest] eqn:Hsort.
  - apply sort_nil in Hsort. subst l. cbn. intros [= <-].
    exists [], []. repeat split; intros other [].
  - destruct (IH y eq_refl) as (before & after & Hl & Hbefore & Hafter).
    cbn [insert]. unfold compareFn.
    destruct (derivationIndex x - derivationIndex y <=? 0) eqn:Hcmp; cbn; intros [= <-].
    + apply Z.leb_le in Hcmp. exists [], l. repeat split; [intros other []|].
      intros other Hother. rewrite Hl in Hother.
      apply in_app_or in Hother. destruct Hother as [Hother|[<-|Hother]].
      * specialize (Hbefore other Hother). lia.
      * lia.
      * specialize (Hafter other Hother). lia.
    + apply Z.leb_gt in Hcmp. exists (x :: before), after.
      rewrite Hl. repeat split; [|exact Hafter].
      intros other [<-|Hother]; [lia|]. exact (Hbefore other Hother).
Qed.

Lemma selectAccount_first_of_least_witness :
  exists before after : list Account,
    [mkAccount "0xB0B" 1; mkAccount "0xA11CE" 0; mkAccount "0xCA401" 0]
    = before ++ mkAccount "0xA11CE" 0 :: after /\
    (forall other : Account, In other before -> 0 < derivationIndex other) /\
    (forall other : Account, In other after -> 0 <= derivationIndex other).
Proof.
  exact (selectAccount_first_of_least
           [mkAccount "0xB0B" 1; mkAccount "0xA11CE" 0; mkAccount "0xCA401" 0]
           (mkAccount "0xA11CE" 0) eq_refl).
Defined.

(** ** The code sheet *)

(** A code of six characters is shown as two groups of three, the
    characters of a group being separated by single spaces. *)
Theorem otpDisplay_six_characters (c1 c2 c3 c4 c5 c6 : ascii) :
  otpDisplay (String c1 (String c2 (String c3 (String c4 (String c5 (String c6 ""))))))
  = (String c1 (String " " (String c2 (String " " (String c3 "")))),
     String c4 (String " " (String c5 (String " " (String c6 ""))))).
Proof. reflexivity. Qed.

Lemma removeSpaces_join (s : string) :
  noSpace s = true -> removeSpaces (join " " (split_chars s)) = s.
Proof.
  induction s as [|c rest IH]; [reflexivity|].
  cbn [noSpace]. intros H. apply andb_prop in H. destruct H as [Hc Hrest].
  specialize (IH Hrest). apply negb_true_iff in Hc.
  destruct rest as [|c' rest'].
  - cbn. rewrite Hc. reflexivity.
  - change (join " " (split_chars (String c (String c' rest'))))
      with (String c (String " " (join " " (split_chars (String c' rest'))))).
    cbn [removeSpaces]. rewrite Hc. cbn [Ascii.eqb Bool.eqb].
    rewrite IH. reflexivity.
Qed.

Lemma substring_empty (s : string) : substring 0 0 s = "".
Proof. destruct s; reflexivity. Qed.

Lemma substring_whole (s : string) : substring 0 (String.length s) s = s.
Proof. induction s as [|c rest IH]; [reflexivity|]. cbn. rewrite IH. reflexivity. Qed.

(** The two groups hold every character of the code, in order, and
    nothing else but spaces: reading them one after the other without
    the spaces gives the code back, whatever its length. *)
Theorem otpDisplay_round_trip (code : string) :
  noSpace code = true ->
  String.append (removeSpaces (fst (otpDisplay code)))
                (removeSpaces (snd (otpDisplay code)))
  = code.
Proof.
  intros Hcode. unfold otpDisplay. cbn [fst snd].
  destruct code as [|c1 [|c2 [|c3 rest]]].
  - reflexivity.
  - cbn in Hcode |- *. rewrite andb_true_r in Hcode. apply negb_true_iff in Hcode.
    rewrite Hcode. reflexivity.
  - change (substring 0 3 (String c1 (String c2 ""))) with (String c1 (String c2 "")).
    change (substring 3 (String.length (String c1 (String c2 "")) - 3)
              (String c1 (String c2 ""))) with "".
    rewrite (removeSpaces_join _ Hcode). reflexivity.
  - cbn [substring String.length Nat.sub].
    rewrite substring_empty, Nat.sub_0_r, substring_whole.
    cbn [noSpace] in Hcode.
    apply andb_prop in Hcode. destruct Hcode as [H1 Hcode].
    apply andb_prop in Hcode. destruct Hcode as [H2 Hcode].
    apply andb_prop in Hcode. destruct Hcode as [H3 Hrest].
    rewrite (removeSpaces_join rest Hrest).
    rewrite (removeSpaces_join (String c1 (String c2 (String c3 ""))));
      [reflexivity|].
    cbn [noSpace]. rewrite H1, H2, H3. reflexivity.
Qed.

Lemma otpDisplay_round_trip_witness :
  String.append (removeSpaces (fst (otpDisplay "482913")))
                (removeSpaces (snd (otpDisplay "482913")))
  = "482913".
Proof. apply otpDisplay_round_trip. reflexivity. Defined.

(** A code of at most three characters leaves the second group
    empty. *)
Theorem otpDisplay_short_code (code : string) :
  (String.length code <= 3)%nat ->
  otpDisplay code = (join " " (split_chars code), "").
Proof.
  intros Hlen.
  destruct code as [|c1 [|c2 [|c3 [|c4 rest]]]]; try reflexivity.
  cbn in Hlen. lia.
Qed.

Lemma otpDisplay_short_code_witness :
  otpDisplay "48" = (join " " (split_chars "48"), "").
Proof. apply otpDisplay_short_code. cbn. lia. Defined.

(** ** The IP warning *)

(** An answer 401 to the submission stores no code and leaves the
    expiry alone, whatever its body; the message of the missing code is
    not recorded and nothing is logged for the submission. *)
Theorem ip_mismatch_stores_nothing
    (account : Account) (params : Params) (pubKey : PublicKey)
    (encryption : Outcome string) (body : Outcome (option BlobApiResponse))
    (now : Z) (s : State) :
  publicKey params = Some pubKey ->
  let result :=
    onEncryptSeedphrase account params encryption
      (Resolved (mkResponse IP_MISMATCH_STATUS_CODE body)) now s in
  OTP (fst result) = OTP s /\
  expirationTimestamp (fst result) = expirationTimestamp s /\
  error (fst result) <> t "scantastic.error.noCode" /\
  ~ In (LoggerError "onEncryptSeedphrase->fetch") (snd result) /\
  snd (render (fst result)) = IpMismatchSheet.
Proof.
  intros Hkey. cbv zeta. unfold onEncryptSeedphrase. rewrite Hkey.
  destruct encryption as [blob|]; cbn; repeat split; try discriminate;
    intros Hin;
    repeat (destruct Hin as [Hin|Hin]; [discriminate Hin|]); exact Hin.
Qed.

Lemma ip_mismatch_stores_nothing_witness :
  let result :=
    onEncryptSeedphrase (mkAccount "0xA11CE" 0)
      (mkParams (Some (mkPublicKey "c0ffee" "10001")) (Some "abc"))
      (Resolved "blob")
      (Resolved (mkResponse IP_MISMATCH_STATUS_CODE
                   (Resolved (Some (mkBlobBody (Some "123456"))))))
      1000 (initialState 0) in
  OTP (fst result) = OTP (initialState 0) /\
  expirationTimestamp (fst result) = expirationTimestamp (initialState 0) /\
  error (fst result) <> t "scantastic.error.noCode" /\
  ~ In (LoggerError "onEncryptSeedphrase->fetch") (snd result) /\
  snd (render (fst result)) = IpMismatchSheet.
Proof.
  exact (ip_mismatch_stores_nothing (mkAccount "0xA11CE" 0)
           (mkParams (Some (mkPublicKey "c0ffee" "10001")) (Some "abc"))
           (mkPublicKey "c0ffee" "10001") (Resolved "blob")
           (Resolved (Some (mkBlobBody (Some "123456")))) 1000 (initialState 0)
           eq_refl).
Defined.
